(** * GraphQL tutorial resolvers: filtering, sorting, pagination, aggregates

    A shallow embedding of the query resolvers of the tutorial applications
    (app1_basics, app3_filtering, app5_performance) and the properties of
    the filter / sort / paginate pipeline.

    Conventions of the embedding:
    - Python [int] is [Z]; [//] is floor division, i.e. [Z.div], and raises
      [ZeroDivisionError] on a zero divisor.
    - [Decimal] columns and GraphQL [Float] arguments are the rational they
      denote ([Q]); binary rounding is outside the model.
    - A database table is the list of its rows; a QuerySet is the list of
      rows it selects, in order.
    - A resolver is a computation over the store that either returns a value
      or raises, and hands back the store it leaves behind. *)

From Stdlib Require Import ZArith List String Ascii Bool Lia.
From Stdlib Require Import QArith Qround Permutation Sorted DecimalString.
From Stdlib Require DecimalPos DecimalZ.
Import ListNotations.
Open Scope string_scope.
Open Scope Z_scope.

Set Implicit Arguments.

(* ------------------------------------------------------------------ *)
(** ** Python and ORM runtime *)

Module Py.

(** The exceptions the modelled code paths can raise. *)
Inductive Exception : Type :=
| DoesNotExist
| MultipleObjectsReturned
| ZeroDivisionError
| NegativeIndexing        (* QuerySet.__getitem__ with a negative bound *)
| FieldError (column : string).

Inductive Outcome (A : Type) : Type :=
| Return (a : A)
| Raise (e : Exception).
Arguments Return {A} a.
Arguments Raise {A} e.

(** Resolver computations: read the store [St], return or raise. *)
Definition M (St A : Type) : Type := St -> Outcome A * St.

Definition ret {St A} (a : A) : M St A := fun s => (Return a, s).

Definition raise {St A} (e : Exception) : M St A := fun s => (Raise e, s).

Definition bind {St A B} (m : M St A) (k : A -> M St B) : M St B :=
  fun s =>
    match m s with
    | (Return a, s') => k a s'
    | (Raise e, s') => (Raise e, s')
    end.

Definition lift {St A} (o : Outcome A) : M St A := fun s => (o, s).

(** [try: m except exc: handler] for one exception class. *)
Definition try_except {St A} (m : M St A)
           (catches : Exception -> bool) (handler : M St A) : M St A :=
  fun s =>
    match m s with
    | (Return a, s') => (Return a, s')
    | (Raise e, s') => if catches e then handler s' else (Raise e, s')
    end.

Definition is_DoesNotExist (e : Exception) : bool :=
  match e with DoesNotExist => true | _ => false end.

(** [a // b] *)
Definition floordiv (a b : Z) : Outcome Z :=
  if b =? 0 then Raise ZeroDivisionError else Return (a / b).

(** [str(n)] for an int. *)
Definition str (n : Z) : string := NilZero.string_of_int (Z.to_int n).

(** Truthiness of an optional string / int argument ([if x:]). *)
Definition truthy_str (x : option string) : bool :=
  match x with
  | Some s => negb (s =? "")%string
  | None => false
  end.

Definition truthy_int (x : option Z) : bool :=
  match x with
  | Some n => negb (n =? 0)
  | None => false
  end.

Definition len {A} (l : list A) : Z := Z.of_nat (List.length l).

(** A dict with string keys, as the list of its items; [d.get(k, default)]. *)
Fixpoint dict_lookup {V} (d : list (string * V)) (k : string) : option V :=
  match d with
  | [] => None
  | (k', v) :: d' => if (k' =? k)%string then Some v else dict_lookup d' k
  end.

Definition dict_get {V} (d : list (string * V)) (k : string) (default : V) : V :=
  match dict_lookup d k with
  | Some v => v
  | None => default
  end.

(** [l[0] if l else None] and [l[-1] if l else None] *)
Definition first_or_none {A} (l : list A) : option A :=
  match l with
  | [] => None
  | x :: _ => Some x
  end.

Definition last_or_none {A} (l : list A) : option A :=
  first_or_none (rev l).

End Py.

Import Py.

Declare Scope py_scope.
Delimit Scope py_scope with py.
Notation "x <- m ;; k" := (bind m (fun x => k))
  (at level 61, m at next level, right associativity) : py_scope.
Open Scope py_scope.

Module Orm.

(** A model class: rows carry a primary key. *)
Class Model (A : Type) : Type := { pk : A -> Z }.

Section QuerySet.
Context {St A : Type} `{Model A}.

(** [Model.objects.all()] on the table selected by [table]. *)
Definition objects_all (table : St -> list A) : M St (list A) :=
  fun s => (Return (table s), s).

(** [select_related] / [prefetch_related] only change how rows are
    fetched, never which rows. *)
Definition select_related (qs : list A) : list A := qs.
Definition prefetch_related (qs : list A) : list A := qs.

(** [qs.filter(...)] with the lookup given as a row predicate. *)
Definition qs_filter (p : A -> bool) (qs : list A) : list A := filter p qs.

(** [qs.get(pk=k)] *)
Definition qs_get (k : Z) (qs : list A) : Outcome A :=
  match filter (fun r => pk r =? k) qs with
  | [] => Raise DoesNotExist
  | [r] => Return r
  | _ :: _ :: _ => Raise MultipleObjectsReturned
  end.

(** [qs.count()] *)
Definition count (qs : list A) : Z := len qs.

(** [qs[start:stop]]: negative bounds are refused; otherwise the rows
    from [start] up to (not including) [stop]. *)
Definition qs_slice (start stop : Z) (qs : list A) : Outcome (list A) :=
  if (start <? 0) || (stop <? 0) then Raise NegativeIndexing
  else Return (firstn (Z.to_nat (stop - start)) (skipn (Z.to_nat start) qs)).

(** Ordering: a stable insertion sort by the given "less or equal";
    rows with equal keys keep their relative order.  The database leaves
    the order of rows with equal keys open; a statement that depends on it
    assumes that no two rows tie. *)
Fixpoint insert_by (le : A -> A -> bool) (x : A) (l : list A) : list A :=
  match l with
  | [] => [x]
  | y :: t => if le x y then x :: y :: t else y :: insert_by le x t
  end.

Fixpoint sort_by (le : A -> A -> bool) (l : list A) : list A :=
  match l with
  | [] => []
  | x :: t => insert_by le x (sort_by le t)
  end.

(** Strict part of a descending order, so that ties stay stable. *)
Definition descending (le : A -> A -> bool) : A -> A -> bool :=
  fun a b => le b a.

End QuerySet.

(** [name__icontains=needle]: ASCII case-insensitive substring. *)
Definition lower (c : ascii) : ascii :=
  let n := nat_of_ascii c in
  if ((65 <=? n) && (n <=? 90))%nat then ascii_of_nat (n + 32) else c.

Fixpoint iprefix (p s : string) : bool :=
  match p, s with
  | EmptyString, _ => true
  | String _ _, EmptyString => false
  | String a p', String b s' => Ascii.eqb (lower a) (lower b) && iprefix p' s'
  end.

Fixpoint icontains (needle hay : string) : bool :=
  iprefix needle hay ||
  match hay with
  | EmptyString => false
  | String _ hay' => icontains needle hay'
  end.

(** Aggregates over a column (the list of its values in the queryset).
    On no rows, [Avg], [Max] and [Min] are NULL and [Count] is 0. *)
Definition Qsum (xs : list Q) : Q := fold_right Qplus (0#1)%Q xs.

Definition Avg (xs : list Q) : option Q :=
  match xs with
  | [] => None
  | _ :: _ => Some (Qsum xs / inject_Z (len xs))%Q
  end.

Definition Qmax2 (a b : Q) : Q := if Qle_bool a b then b else a.
Definition Qmin2 (a b : Q) : Q := if Qle_bool a b then a else b.

Definition Max (xs : list Q) : option Q :=
  match xs with
  | [] => None
  | x :: t => Some (fold_left Qmax2 t x)
  end.

Definition Min (xs : list Q) : option Q :=
  match xs with
  | [] => None
  | x :: t => Some (fold_left Qmin2 t x)
  end.

Definition Count {A} (xs : list A) : Z := len xs.

End Orm.

Import Orm.

(* ------------------------------------------------------------------ *)
(** ** App 3: filtering, sorting, pagination (app3_filtering) *)

Module App3.

Module Category.
Record t : Type := {
  id : Z;
  name : string;
  slug : string;
  created_at : Z
}.
End Category.

Module Product.
Record t : Type := {
  id : Z;
  name : string;
  category_id : Z;
  price : Q;               (* DecimalField(10, 2) *)
  stock_quantity : Z;
  is_featured : bool;
  is_active : bool;
  rating : Q;              (* DecimalField(3, 1) *)
  created_at : Z           (* DateTimeField, as a timestamp *)
}.
End Product.

#[export] Instance Category_Model : Model Category.t := {| pk := Category.id |}.
#[export] Instance Product_Model : Model Product.t := {| pk := Product.id |}.

Record Store : Type := {
  categories : list Category.t;
  products : list Product.t
}.

(** Input types; an absent or null field is [None]. *)
Module ProductFilterInput.
Record t : Type := {
  name : option string;
  category_id : option Z;
  is_active : option bool;
  is_featured : option bool;
  price_min : option Q;
  price_max : option Q;
  rating_min : option Q;
  has_stock : option bool
}.
End ProductFilterInput.

Module SortInput.
Record t : Type := {
  field : string;
  order : option string
}.
End SortInput.

(** Result types. *)
Module ProductPaginatedType.
Record t : Type := {
  items : list Product.t;
  total_count : Z;
  page : Z;
  page_size : Z;
  total_pages : Z;
  has_next : bool;
  has_previous : bool
}.
End ProductPaginatedType.

Module ProductEdge.
Record t : Type := {
  node : Product.t;
  cursor : string
}.
End ProductEdge.

Module PageInfo.
Record t : Type := {
  has_next_page : bool;
  has_previous_page : bool;
  start_cursor : option string;
  end_cursor : option string
}.
End PageInfo.

Module ProductConnection.
Record t : Type := {
  edges : list ProductEdge.t;
  page_info : PageInfo.t;
  total_count : Z
}.
End ProductConnection.

(** Sortable columns of [Product] and their orders. *)
Definition columns : list (string * (Product.t -> Product.t -> bool)) :=
  [ ("id", fun a b => Product.id a <=? Product.id b);
    ("name", fun a b => (Product.name a <=? Product.name b)%string);
    ("price", fun a b => Qle_bool (Product.price a) (Product.price b));
    ("rating", fun a b => Qle_bool (Product.rating a) (Product.rating b));
    ("created_at", fun a b => Product.created_at a <=? Product.created_at b) ].

(** [queryset.order_by(spec)], [spec] a column name with an optional
    leading minus sign. *)
Definition order_by (spec : string) (queryset : list Product.t)
  : Outcome (list Product.t) :=
  let (desc, col) :=
    match spec with
    | String "-" col => (true, col)
    | _ => (false, spec)
    end in
  match dict_lookup columns col with
  | Some le => Return (sort_by (if desc then descending le else le) queryset)
  | None => Raise (FieldError col)
  end.

Definition resolve_category (id : Z) : M Store (option Category.t) :=
  try_except
    (qs <- objects_all categories ;;
     r <- lift (qs_get id qs) ;;
     ret (Some r))
    is_DoesNotExist
    (ret None).

Definition resolve_product (id : Z) : M Store (option Product.t) :=
  try_except
    (qs <- objects_all products ;;
     r <- lift (qs_get id (prefetch_related (select_related qs))) ;;
     ret (Some r))
    is_DoesNotExist
    (ret None).

(** The "Apply filters" block of [resolve_products_filtered].  The outer
    [if filters:] skips the block for a missing input object; an input
    object without keys is falsy as well, and has every field [None], for
    which the block changes nothing. *)
Definition apply_filters (filters : option ProductFilterInput.t)
           (queryset : list Product.t) : list Product.t :=
  match filters with
  | None => queryset
  | Some filters =>
    let queryset :=
      match ProductFilterInput.name filters with
      | Some n =>
        if truthy_str (Some n)
        then qs_filter (fun p => icontains n (Product.name p)) queryset
        else queryset
      | None => queryset
      end in
    let queryset :=
      match ProductFilterInput.category_id filters with
      | Some c =>
        if truthy_int (Some c)
        then qs_filter (fun p => Product.category_id p =? c) queryset
        else queryset
      | None => queryset
      end in
    let queryset :=
      match ProductFilterInput.is_active filters with
      | Some b => qs_filter (fun p => Bool.eqb (Product.is_active p) b) queryset
      | None => queryset
      end in
    let queryset :=
      match ProductFilterInput.is_featured filters with
      | Some b => qs_filter (fun p => Bool.eqb (Product.is_featured p) b) queryset
      | None => queryset
      end in
    let queryset :=
      match ProductFilterInput.price_min filters with
      | Some v => qs_filter (fun p => Qle_bool v (Product.price p)) queryset
      | None => queryset
      end in
    let queryset :=
      match ProductFilterInput.price_max filters with
      | Some v => qs_filter (fun p => Qle_bool (Product.price p) v) queryset
      | None => queryset
      end in
    let queryset :=
      match ProductFilterInput.rating_min filters with
      | Some v => qs_filter (fun p => Qle_bool v (Product.rating p)) queryset
      | None => queryset
      end in
    match ProductFilterInput.has_stock filters with
    | Some true => qs_filter (fun p => 0 <? Product.stock_quantity p) queryset
    | Some false => qs_filter (fun p => Product.stock_quantity p =? 0) queryset
    | None => queryset
    end
  end.

(** The "Apply sorting" block of [resolve_products_filtered]. *)
Definition field_map : list (string * string) :=
  [ ("name", "name"); ("price", "price");
    ("rating", "rating"); ("created_at", "created_at") ].

Definition apply_sort (sort : option SortInput.t)
           (queryset : list Product.t) : Outcome (list Product.t) :=
  match sort with
  | Some sort =>
    let field := dict_get field_map (SortInput.field sort) "created_at" in
    let order :=
      match SortInput.order sort with
      | Some o => if (o =? "desc")%string then "-" else ""
      | None => ""
      end in
    order_by (order ++ field) queryset
  | None => order_by "-created_at" queryset
  end.

(** The keys of [field_map]: the sort fields the resolver knows. *)
Definition allow_list : list string := map fst field_map.

(** The queryset the paginator slices: filtered, then ordered.  (The
    ordering never raises, see [apply_sort_total]; the [Raise] branch is
    only there to make the function total.) *)
Definition filtered_view (filters : option ProductFilterInput.t)
           (sort : option SortInput.t) (s : Store) : list Product.t :=
  match apply_sort sort (apply_filters filters (products s)) with
  | Return view => view
  | Raise _ => []
  end.

Definition resolve_products_filtered
           (filters : option ProductFilterInput.t) (sort : option SortInput.t)
           (page page_size : Z) : M Store ProductPaginatedType.t :=
  queryset <- objects_all products ;;
  let queryset := prefetch_related (select_related queryset) in
  let queryset := apply_filters filters queryset in
  queryset <- lift (apply_sort sort queryset) ;;
  let total_count := count queryset in
  total_pages <- lift (floordiv (total_count + page_size - 1) page_size) ;;
  let offset := (page - 1) * page_size in
  items <- lift (qs_slice offset (offset + page_size) queryset) ;;
  ret {| ProductPaginatedType.items := items;
         ProductPaginatedType.total_count := total_count;
         ProductPaginatedType.page := page;
         ProductPaginatedType.page_size := page_size;
         ProductPaginatedType.total_pages := total_pages;
         ProductPaginatedType.has_next := page <? total_pages;
         ProductPaginatedType.has_previous := page >? 1 |}.

(** The filters of [resolve_products_paginated]. *)
Definition cursor_filters (name : option string) (category_id : option Z)
           (is_active : option bool) (queryset : list Product.t)
  : list Product.t :=
  let queryset :=
    match name with
    | Some n =>
      if truthy_str (Some n)
      then qs_filter (fun p => icontains n (Product.name p)) queryset
      else queryset
    | None => queryset
    end in
  let queryset :=
    match category_id with
    | Some c =>
      if truthy_int (Some c)
      then qs_filter (fun p => Product.category_id p =? c) queryset
      else queryset
    | None => queryset
    end in
  match is_active with
  | Some b => qs_filter (fun p => Bool.eqb (Product.is_active p) b) queryset
  | None => queryset
  end.

Definition make_edge (item : Product.t) : ProductEdge.t :=
  {| ProductEdge.node := item;
     ProductEdge.cursor := "cursor_" ++ str (Product.id item) |}.

(** The queryset the cursor resolver takes its items from: filtered,
    then newest first. *)
Definition cursor_view (name : option string) (category_id : option Z)
           (is_active : option bool) (s : Store) : list Product.t :=
  sort_by (descending
             (fun a b => Product.created_at a <=? Product.created_at b))
          (cursor_filters name category_id is_active (products s)).

Definition resolve_products_paginated
           (name : option string) (category_id : option Z)
           (is_active : option bool) (first : Z) (after : option string)
  : M Store ProductConnection.t :=
  queryset <- objects_all products ;;
  let queryset := prefetch_related (select_related queryset) in
  let queryset := cursor_filters name category_id is_active queryset in
  queryset <- lift (order_by "-created_at" queryset) ;;
  let total_count := count queryset in
  items <- lift (qs_slice 0 first queryset) ;;
  let edges := map make_edge items in
  let page_info :=
    {| PageInfo.has_next_page := total_count >? first;
       PageInfo.has_previous_page := false;
       PageInfo.start_cursor :=
         option_map ProductEdge.cursor (first_or_none edges);
       PageInfo.end_cursor :=
         option_map ProductEdge.cursor (last_or_none edges) |} in
  ret {| ProductConnection.edges := edges;
         ProductConnection.page_info := page_info;
         ProductConnection.total_count := total_count |}.

(** [float(avg) if avg else 0]; the field is a nullable Float, and [None]
    would be its null. *)
Definition resolve_avg_product_price : M Store (option Q) :=
  qs <- objects_all products ;;
  let avg := Avg (map Product.price qs) in
  ret (match avg with
       | Some a => if negb (Qeq_bool a 0) then Some a else Some (0#1)%Q
       | None => Some (0#1)%Q
       end).

End App3.

(* ------------------------------------------------------------------ *)
(** ** App 1: basic queries (app1_basics) *)

Module App1.

Module Author.
Record t : Type := {
  id : Z;
  name : string;
  email : string;
  created_at : Z
}.
End Author.

Module Book.
Record t : Type := {
  id : Z;
  title : string;
  description : string;
  author_id : Z;
  published_date : Z;
  created_at : Z
}.
End Book.

#[export] Instance Author_Model : Model Author.t := {| pk := Author.id |}.
#[export] Instance Book_Model : Model Book.t := {| pk := Book.id |}.

Record Store : Type := {
  authors : list Author.t;
  books : list Book.t
}.

(** [Author.Meta.ordering] and [Book.Meta.ordering] are
    [['-created_at']]. *)
Definition author_ordering (qs : list Author.t) : list Author.t :=
  sort_by (descending
             (fun a b => Author.created_at a <=? Author.created_at b)) qs.

Definition book_ordering (qs : list Book.t) : list Book.t :=
  sort_by (descending (fun a b => Book.created_at a <=? Book.created_at b)) qs.

Definition resolve_all_authors : M Store (list Author.t) :=
  qs <- objects_all authors ;;
  ret (author_ordering qs).

Definition resolve_author (id : Z) : M Store (option Author.t) :=
  try_except
    (qs <- objects_all authors ;;
     r <- lift (qs_get id qs) ;;
     ret (Some r))
    is_DoesNotExist
    (ret None).

Definition resolve_all_books : M Store (list Book.t) :=
  qs <- objects_all books ;;
  ret (book_ordering (select_related qs)).

Definition resolve_book (id : Z) : M Store (option Book.t) :=
  try_except
    (qs <- objects_all books ;;
     r <- lift (qs_get id (select_related qs)) ;;
     ret (Some r))
    is_DoesNotExist
    (ret None).

End App1.

(* ------------------------------------------------------------------ *)
(** ** App 5: performance patterns (app5_performance) *)

Module App5.

Module Organization.
Record t : Type := {
  id : Z;
  name : string;
  slug : string;
  is_active : bool;
  created_at : Z
}.
End Organization.

Module Employee.
Record t : Type := {
  id : Z;
  name : string;
  email : string;
  department : string;
  salary : Q;
  organization_id : Z;
  is_active : bool
}.
End Employee.

Module Project.
Record t : Type := {
  id : Z;
  name : string;
  status : string;
  organization_id : Z;
  team_members : list Z;
  budget : Q
}.
End Project.

Module Performance.
Record t : Type := {
  id : Z;
  metric_type : string;
  value : Q;               (* FloatField *)
  endpoint : string;
  status_code : Z;
  timestamp : Z
}.
End Performance.

#[export] Instance Organization_Model : Model Organization.t :=
  {| pk := Organization.id |}.
#[export] Instance Employee_Model : Model Employee.t := {| pk := Employee.id |}.
#[export] Instance Project_Model : Model Project.t := {| pk := Project.id |}.
#[export] Instance Performance_Model : Model Performance.t :=
  {| pk := Performance.id |}.

Record Store : Type := {
  organizations : list Organization.t;
  employees : list Employee.t;
  projects : list Project.t;
  performances : list Performance.t
}.

Module PerformanceMetricsType.
Record t : Type := {
  metric_type : string;
  average_value : option Q;
  count : Z;
  max_value : option Q;
  min_value : option Q
}.
End PerformanceMetricsType.

Definition resolve_organization (id : Z) : M Store (option Organization.t) :=
  try_except
    (qs <- objects_all organizations ;;
     r <- lift (qs_get id qs) ;;
     ret (Some r))
    is_DoesNotExist
    (ret None).

Definition resolve_employee (id : Z) : M Store (option Employee.t) :=
  try_except
    (qs <- objects_all employees ;;
     r <- lift (qs_get id (select_related qs)) ;;
     ret (Some r))
    is_DoesNotExist
    (ret None).

Definition resolve_project (id : Z) : M Store (option Project.t) :=
  try_except
    (qs <- objects_all projects ;;
     r <- lift (qs_get id (select_related (prefetch_related qs))) ;;
     ret (Some r))
    is_DoesNotExist
    (ret None).

(** [Performance.objects.filter(metric_type=...).aggregate(Avg, Count,
    Max, Min)] packed into the result type. *)
Definition resolve_performance_summary (metric_type : string)
  : M Store PerformanceMetricsType.t :=
  qs <- objects_all performances ;;
  let qs :=
    qs_filter (fun r => (Performance.metric_type r =? metric_type)%string) qs in
  let values := map Performance.value qs in
  let avg_value := Avg values in
  let count := Count (map Performance.id qs) in
  let max_value := Max values in
  let min_value := Min values in
  ret {| PerformanceMetricsType.metric_type := metric_type;
         PerformanceMetricsType.average_value := avg_value;
         PerformanceMetricsType.count := count;
         PerformanceMetricsType.max_value := max_value;
         PerformanceMetricsType.min_value := min_value |}.

End App5.

(* ------------------------------------------------------------------ *)
(** ** Fixtures *)

Module Fixtures.
Import App3.

Definition product (id : Z) (name : string) (category_id : Z) (cents : Z)
           (stock : Z) (featured active : bool) (rating10 : Z) (created : Z)
  : Product.t :=
  {| Product.id := id; Product.name := name;
     Product.category_id := category_id;
     Product.price := (cents # 100)%Q;
     Product.stock_quantity := stock;
     Product.is_featured := featured; Product.is_active := active;
     Product.rating := (rating10 # 10)%Q;
     Product.created_at := created |}.

(** Five products priced 19.99, 29.99, 49.99, 99.99 and 999.99. *)
Definition tshirt := product 1 "T-Shirt" 3 1999 0 false false 35 100.
Definition mug := product 2 "Mug" 3 2999 10 false true 40 200.
Definition python_book := product 3 "Python Book" 2 4999 200 false true 48 300.
Definition headphones := product 4 "Headphones" 1 9999 5 true true 42 400.
Definition laptop := product 5 "Laptop" 1 99999 50 true true 45 500.

Definition five_products : Store :=
  {| categories := [];
     products := [laptop; python_book; tshirt; headphones; mug] |}.

(** Two catalogues holding the record with id 1 under different
    creation times. *)
Definition tshirt_relisted := product 1 "T-Shirt" 3 1999 0 false false 35 900.
Definition only_tshirt : Store := {| categories := []; products := [tshirt] |}.
Definition only_tshirt_relisted : Store :=
  {| categories := []; products := [tshirt_relisted] |}.

Definition empty_store : Store := {| categories := []; products := [] |}.

Definition no_filters : ProductFilterInput.t :=
  {| ProductFilterInput.name := None;
     ProductFilterInput.category_id := None;
     ProductFilterInput.is_active := None;
     ProductFilterInput.is_featured := None;
     ProductFilterInput.price_min := None;
     ProductFilterInput.price_max := None;
     ProductFilterInput.rating_min := None;
     ProductFilterInput.has_stock := None |}.

Definition price_between (lo hi : Q) : ProductFilterInput.t :=
  {| ProductFilterInput.name := None;
     ProductFilterInput.category_id := None;
     ProductFilterInput.is_active := None;
     ProductFilterInput.is_featured := None;
     ProductFilterInput.price_min := Some lo;
     ProductFilterInput.price_max := Some hi;
     ProductFilterInput.rating_min := None;
     ProductFilterInput.has_stock := None |}.

Definition price_25_to_100 : ProductFilterInput.t :=
  price_between (25 # 1) (100 # 1).


Definition category_zero : ProductFilterInput.t :=
  {| ProductFilterInput.name := None;
     ProductFilterInput.category_id := Some 0;
     ProductFilterInput.is_active := None;
     ProductFilterInput.is_featured := None;
     ProductFilterInput.price_min := None;
     ProductFilterInput.price_max := None;
     ProductFilterInput.rating_min := None;
     ProductFilterInput.has_stock := None |}.

Definition by_price_asc : SortInput.t :=
  {| SortInput.field := "price"; SortInput.order := Some "asc" |}.

Definition by_unknown_field : SortInput.t :=
  {| SortInput.field := "stock_quantity"; SortInput.order := Some "asc" |}.

Definition by_created_at : SortInput.t :=
  {| SortInput.field := "created_at"; SortInput.order := Some "asc" |}.

(** A library (app 1) and a company (app 5). *)
Definition library : App1.Store :=
  {| App1.authors :=
       [ {| App1.Author.id := 1; App1.Author.name := "Ada";
            App1.Author.email := "ada@example.com";
            App1.Author.created_at := 10 |} ];
     App1.books :=
       [ {| App1.Book.id := 1; App1.Book.title := "Notes";
            App1.Book.description := "On the engine";
            App1.Book.author_id := 1;
            App1.Book.published_date := 5;
            App1.Book.created_at := 11 |} ] |}.

Definition api_metric (id : Z) (ms : Z) : App5.Performance.t :=
  {| App5.Performance.id := id;
     App5.Performance.metric_type := "api_response";
     App5.Performance.value := (ms # 1)%Q;
     App5.Performance.endpoint := "/graphql";
     App5.Performance.status_code := 200;
     App5.Performance.timestamp := id |}.

Definition company : App5.Store :=
  {| App5.organizations :=
       [ {| App5.Organization.id := 1; App5.Organization.name := "Acme";
            App5.Organization.slug := "acme";
            App5.Organization.is_active := true;
            App5.Organization.created_at := 1 |} ];
     App5.employees :=
       [ {| App5.Employee.id := 1; App5.Employee.name := "Bo";
            App5.Employee.email := "bo@example.com";
            App5.Employee.department := "Engineering";
            App5.Employee.salary := (5000000 # 100)%Q;
            App5.Employee.organization_id := 1;
            App5.Employee.is_active := true |} ];
     App5.projects :=
       [ {| App5.Project.id := 1; App5.Project.name := "Apollo";
            App5.Project.status := "planning";
            App5.Project.organization_id := 1;
            App5.Project.team_members := [1];
            App5.Project.budget := (100000 # 1)%Q |} ];
     App5.performances := [api_metric 1 120; api_metric 2 80] |}.

End Fixtures.

(* ------------------------------------------------------------------ *)
(** ** The specification's vocabulary *)

Module Spec.
Import App3.

(** [ceil(n / d)] for a positive [d], over the rationals. *)
Definition ceil_div (n d : Z) : Z := Qceiling (n # Z.to_pos d).

(** [view[a : b]] for [0 <= a]. *)
Definition slice {A} (view : list A) (a b : Z) : list A :=
  firstn (Z.to_nat b - Z.to_nat a) (skipn (Z.to_nat a) view).

(** "Satisfies every supplied predicate": each filter key that is
    present contributes its predicate, and they are AND-ed. *)
Definition holds {V} (x : option V) (pred : V -> bool) : bool :=
  match x with
  | Some v => pred v
  | None => true
  end.

Definition satisfies_supplied (f : ProductFilterInput.t) (p : Product.t)
  : bool :=
  holds (ProductFilterInput.name f) (fun n => icontains n (Product.name p))
  && holds (ProductFilterInput.category_id f)
           (fun c => Product.category_id p =? c)
  && holds (ProductFilterInput.is_active f)
           (fun b => Bool.eqb (Product.is_active p) b)
  && holds (ProductFilterInput.is_featured f)
           (fun b => Bool.eqb (Product.is_featured p) b)
  && holds (ProductFilterInput.price_min f)
           (fun v => Qle_bool v (Product.price p))
  && holds (ProductFilterInput.price_max f)
           (fun v => Qle_bool (Product.price p) v)
  && holds (ProductFilterInput.rating_min f)
           (fun v => Qle_bool v (Product.rating p))
  && holds (ProductFilterInput.has_stock f)
           (fun b => if b then 0 <? Product.stock_quantity p
                     else Product.stock_quantity p =? 0).

(** Field updates of a filter input. *)
Definition with_name (f : ProductFilterInput.t) (v : option string)
  : ProductFilterInput.t :=
  {| ProductFilterInput.name := v;
     ProductFilterInput.category_id := ProductFilterInput.category_id f;
     ProductFilterInput.is_active := ProductFilterInput.is_active f;
     ProductFilterInput.is_featured := ProductFilterInput.is_featured f;
     ProductFilterInput.price_min := ProductFilterInput.price_min f;
     ProductFilterInput.price_max := ProductFilterInput.price_max f;
     ProductFilterInput.rating_min := ProductFilterInput.rating_min f;
     ProductFilterInput.has_stock := ProductFilterInput.has_stock f |}.

Definition with_category_id (f : ProductFilterInput.t) (v : option Z)
  : ProductFilterInput.t :=
  {| ProductFilterInput.name := ProductFilterInput.name f;
     ProductFilterInput.category_id := v;
     ProductFilterInput.is_active := ProductFilterInput.is_active f;
     ProductFilterInput.is_featured := ProductFilterInput.is_featured f;
     ProductFilterInput.price_min := ProductFilterInput.price_min f;
     ProductFilterInput.price_max := ProductFilterInput.price_max f;
     ProductFilterInput.rating_min := ProductFilterInput.rating_min f;
     ProductFilterInput.has_stock := ProductFilterInput.has_stock f |}.







(** A filter input with its falsy [name] and [category_id] taken out. *)
Definition drop_falsy (f : ProductFilterInput.t) : ProductFilterInput.t :=
  let f :=
    if truthy_str (ProductFilterInput.name f) then f else with_name f None in
  if truthy_int (ProductFilterInput.category_id f) then f
  else with_category_id f None.

(** The direction a sort input asks for, and the order by creation time. *)
Definition is_desc (order : option string) : bool :=
  match order with
  | Some o => (o =? "desc")%string
  | None => false
  end.

Definition created_at_le (a b : Product.t) : bool :=
  Product.created_at a <=? Product.created_at b.

(** "The cursor encodes the sort key and the identifier": some decoder
    recovers both from the cursor of every edge of every page. *)
Definition cursor_encodes_sort_key_and_id : Prop :=
  exists decode : string -> Z * Z,
  forall name category_id is_active first after s conn e,
    fst (resolve_products_paginated name category_id is_active first after s)
    = Return conn ->
    In e (ProductConnection.edges conn) ->
    decode (ProductEdge.cursor e)
    = (Product.created_at (ProductEdge.node e),
       Product.id (ProductEdge.node e)).

End Spec.

(* ------------------------------------------------------------------ *)
(** ** App 3: the remaining product and category resolvers *)

Module App3More.
Import App3.

(** [Product.Meta.ordering = ['-created_at']] and
    [Category.Meta.ordering = ['name']]: the order of a queryset that was
    given no [order_by]. *)
Definition product_ordering (qs : list Product.t) : list Product.t :=
  sort_by (descending
             (fun a b => Product.created_at a <=? Product.created_at b)) qs.

Definition category_ordering (qs : list Category.t) : list Category.t :=
  sort_by (fun a b => (Category.name a <=? Category.name b)%string) qs.

Definition resolve_all_categories : M Store (list Category.t) :=
  qs <- objects_all categories ;;
  ret (category_ordering (prefetch_related qs)).

Definition resolve_all_products : M Store (list Product.t) :=
  qs <- objects_all products ;;
  ret (product_ordering (prefetch_related (select_related qs))).

(** [CategoryType.resolve_products_count]: [self.products.count()], the
    products whose foreign key points at the category. *)
Definition resolve_products_count (self : Category.t) : M Store Z :=
  qs <- objects_all products ;;
  ret (count (qs_filter (fun p => Product.category_id p =? Category.id self) qs)).

(** The order a sort input asks for: the column of the field the field
    map yields, turned round for ["desc"]; newest first without a sort. *)
Definition sort_order (sort : option SortInput.t)
  : Product.t -> Product.t -> bool :=
  match sort with
  | Some sort =>
    let le :=
      match dict_lookup columns
                        (dict_get field_map (SortInput.field sort) "created_at")
      with
      | Some le => le
      | None => fun _ _ => true
      end in
    if Spec.is_desc (SortInput.order sort) then descending le else le
  | None =>
    descending (fun a b => Product.created_at a <=? Product.created_at b)
  end.

(** The items a client sees on one page of [products_filtered]
    (nothing, if the request raises). *)
Definition page_items (filters : option ProductFilterInput.t)
           (sort : option SortInput.t) (page_size : Z) (s : Store) (page : Z)
  : list Product.t :=
  match fst (resolve_products_filtered filters sort page page_size s) with
  | Return r => ProductPaginatedType.items r
  | Raise _ => []
  end.

(** Page numbers [1 .. n]. *)
Definition page_numbers (n : Z) : list Z := map Z.of_nat (seq 1 (Z.to_nat n)).

(** The predicate the cursor resolver's filters amount to. *)
Definition cursor_matches (name : option string) (category_id : option Z)
           (is_active : option bool) (p : Product.t) : bool :=
  (if truthy_str name
   then match name with
        | Some n => icontains n (Product.name p)
        | None => true
        end
   else true)
  && (if truthy_int category_id
      then match category_id with
           | Some c => Product.category_id p =? c
           | None => true
           end
      else true)
  && match is_active with
     | Some b => Bool.eqb (Product.is_active p) b
     | None => true
     end.

End App3More.

(* ------------------------------------------------------------------ *)
(** ** Python floats *)

Module PyFloat.

(** A float is kept as the expression that produced it: which operands
    were converted, added, multiplied or divided, in which order.  What
    each operation rounds to is outside the model, so nothing is said
    about the digits of a result, only about how it was computed. *)
Inductive t : Type :=
| of_int (n : Z)             (* an int operand *)
| of_decimal (d : Q)         (* [float(d)] for a Decimal [d] *)
| stored (x : Q)             (* a float as stored or written, e.g. [0.0] *)
| db_sum (xs : list Q)       (* the database's [SUM] over a float column *)
| add (a b : t)              (* [a + b] *)
| mul (a b : t)              (* [a * b] *)
| div_int (a b : Z)          (* [a / b] for ints, [b] not zero *)
| or_zero (a : t).           (* [a or 0.0] *)

(** [a / b] for ints. *)
Definition truediv (a b : Z) : Outcome t :=
  if b =? 0 then Raise ZeroDivisionError else Return (div_int a b).

(** [sum(xs)]: starts from the int 0 and adds from the left. *)
Definition sum (xs : list t) : t := fold_left add xs (of_int 0).

End PyFloat.

(* ------------------------------------------------------------------ *)
(** ** App 5: listings, statistics, test results *)

Module App5More.
Import App5.

Module TestResult.
Record t : Type := {
  id : Z;
  test_name : string;
  test_file : string;
  status : string;
  execution_time : Q;      (* FloatField, seconds *)
  error_message : string;
  created_at : Z
}.
End TestResult.

#[export] Instance TestResult_Model : Model TestResult.t :=
  {| pk := TestResult.id |}.

(** The table of test results, next to the tables of [App5.Store]. *)
Record TestStore : Type := {
  test_results : list TestResult.t
}.

Module TestSummaryType.
Record t : Type := {
  total_tests : Z;
  passed : Z;
  failed : Z;
  skipped : Z;
  pass_rate : PyFloat.t;
  total_execution_time : PyFloat.t
}.
End TestSummaryType.

Module EmployeeStatsType.
Record t : Type := {
  department : string;
  count : Z;
  average_salary : option Q   (* the group's [Avg]; [None] is its NULL *)
}.
End EmployeeStatsType.

(** [Sum] over a float column: NULL on no rows. *)
Definition Sum (xs : list Q) : option PyFloat.t :=
  match xs with
  | [] => None
  | _ :: _ => Some (PyFloat.db_sum xs)
  end.

(** [Count('id', filter=Q(status=...))] *)
Definition count_status (status : string) (qs : list TestResult.t) : Z :=
  Count (map TestResult.id
             (filter (fun r => (TestResult.status r =? status)%string) qs)).

Definition resolve_expensive_employees (min_salary : Q)
  : M Store (list Employee.t) :=
  qs <- objects_all employees ;;
  let qs :=
    qs_filter (fun e => Qle_bool min_salary (Employee.salary e)
                        && Bool.eqb (Employee.is_active e) true) qs in
  let qs :=
    sort_by (descending
               (fun a b => Qle_bool (Employee.salary a) (Employee.salary b)))
            (select_related qs) in
  lift (qs_slice 0 20 qs).

Definition resolve_performance_metrics (metric_type : option string)
  : M Store (list Performance.t) :=
  queryset <- objects_all performances ;;
  let queryset :=
    match metric_type with
    | Some m =>
      if truthy_str (Some m)
      then qs_filter (fun r => (Performance.metric_type r =? m)%string) queryset
      else queryset
    | None => queryset
    end in
  lift (qs_slice 0 100
          (sort_by (descending
                      (fun a b => Performance.timestamp a
                                  <=? Performance.timestamp b))
                   queryset)).

(** [limit = limit or 10] *)
Definition limit_or_10 (limit : option Z) : Z :=
  if truthy_int limit
  then match limit with
       | Some n => n
       | None => 10
       end
  else 10.

Definition resolve_slowest_endpoints (limit : option Z)
  : M Store (list Performance.t) :=
  let limit := limit_or_10 limit in
  qs <- objects_all performances ;;
  let qs :=
    qs_filter (fun r => (Performance.metric_type r =? "api_response")%string)
              qs in
  lift (qs_slice 0 limit
          (sort_by (descending
                      (fun a b => Qle_bool (Performance.value a)
                                           (Performance.value b)))
                   qs)).

Definition resolve_test_summary : M TestStore TestSummaryType.t :=
  qs <- objects_all test_results ;;
  let results_total := Count (map TestResult.id qs) in
  let results_passed := count_status "passed" qs in
  let results_failed := count_status "failed" qs in
  let results_skipped := count_status "skipped" qs in
  let results_total_time := Sum (map TestResult.execution_time qs) in
  let total := if results_total =? 0 then 1 else results_total in
  pass_rate <-
    (if total >? 0
     then rate <- lift (PyFloat.truediv results_passed total) ;;
          ret (PyFloat.mul rate (PyFloat.of_int 100))
     else ret (PyFloat.of_int 0)) ;;
  ret {| TestSummaryType.total_tests := results_total;
         TestSummaryType.passed := results_passed;
         TestSummaryType.failed := results_failed;
         TestSummaryType.skipped := results_skipped;
         TestSummaryType.pass_rate := pass_rate;
         TestSummaryType.total_execution_time :=
           match results_total_time with
           | Some t => PyFloat.or_zero t
           | None => PyFloat.stored (0 # 1)
           end |}.

(** The sum of a list of counts. *)
Definition total (xs : list Z) : Z := fold_right Z.add 0 xs.

(** [values('department')]: the departments, each once. *)
Definition departments (qs : list Employee.t) : list string :=
  nodup string_dec (map Employee.department qs).

Definition resolve_employee_stats_by_department
  : M Store (list EmployeeStatsType.t) :=
  qs <- objects_all employees ;;
  let qs := qs_filter (fun e => Bool.eqb (Employee.is_active e) true) qs in
  let stats :=
    map (fun d =>
           let group :=
             filter (fun e => (Employee.department e =? d)%string) qs in
           {| EmployeeStatsType.department := d;
              EmployeeStatsType.count := Count (map Employee.id group);
              EmployeeStatsType.average_salary :=
                Avg (map Employee.salary group) |})
        (departments qs) in
  ret (sort_by (descending
                  (fun a b => EmployeeStatsType.count a
                              <=? EmployeeStatsType.count b))
               stats).

End App5More.

(* ------------------------------------------------------------------ *)
(** ** App 5: the cache in front of the organization queries *)

Module App5Cache.
Import App5.

(** What the resolvers put in the cache. *)
Inductive Value : Type :=
| IntValue (n : Z)
| FloatValue (x : PyFloat.t)
| OrgList (orgs : list Organization.t).

(** The process-wide cache, as the list of its live entries; entries do
    not expire within the span that is modelled. *)
Definition Cache : Type := list (string * Value).

Record Site : Type := {
  db : Store;
  cache : Cache
}.

(** [cache.get(key)] and [cache.set(key, value, timeout)] *)
Definition cache_get (key : string) : M Site (option Value) :=
  fun s => (Return (dict_lookup (cache s) key), s).

Definition cache_set (key : string) (value : Value) (timeout : Z)
  : M Site unit :=
  fun s =>
    (Return tt,
     {| db := db s;
        cache := (key, value)
                   :: filter (fun kv => negb (fst kv =? key)%string) (cache s) |}).

(** [Organization.Meta.ordering = ['-created_at']] *)
Definition organization_ordering (qs : list Organization.t)
  : list Organization.t :=
  sort_by (descending
             (fun a b => Organization.created_at a
                         <=? Organization.created_at b)) qs.

Definition resolve_all_organizations : M Site Value :=
  let cache_key := "all_orgs" in
  orgs <- cache_get cache_key ;;
  match orgs with
  | None =>
    qs <- objects_all (fun s => organizations (db s)) ;;
    let orgs :=
      OrgList (organization_ordering
                 (qs_filter (fun o => Bool.eqb (Organization.is_active o) true)
                            qs)) in
    _ <- cache_set cache_key orgs 3600 ;;
    ret orgs
  | Some orgs => ret orgs
  end.

(** [Organization.get_employee_count_cached], which
    [OrganizationType.resolve_employee_count_cached] returns. *)
Definition get_employee_count_cached (self : Organization.t) : M Site Value :=
  let cache_key := "org_employees_" ++ str (Organization.id self) in
  count <- cache_get cache_key ;;
  match count with
  | None =>
    qs <- objects_all (fun s => employees (db s)) ;;
    let count :=
      IntValue
        (Orm.count
           (qs_filter (fun e => Bool.eqb (Employee.is_active e) true)
                      (qs_filter (fun e => Employee.organization_id e
                                           =? Organization.id self) qs))) in
    _ <- cache_set cache_key count 3600 ;;
    ret count
  | Some count => ret count
  end.

Definition resolve_employee_count_cached (self : Organization.t)
  : M Site Value :=
  get_employee_count_cached self.

(** [Project.Meta.ordering] is by a creation time that [Project.t] does
    not carry; the order it puts the rows of [self.projects.all()] in is
    taken as [project_ordering]. *)
Definition resolve_total_budget
           (project_ordering : list Project.t -> list Project.t)
           (self : Organization.t) : M Site Value :=
  let cache_key := "org_budget_" ++ str (Organization.id self) in
  budget <- cache_get cache_key ;;
  match budget with
  | None =>
    qs <- objects_all (fun s => projects (db s)) ;;
    let budget :=
      FloatValue
        (PyFloat.sum
           (map (fun p => PyFloat.of_decimal (Project.budget p))
                (project_ordering
                   (qs_filter (fun p => Project.organization_id p
                                        =? Organization.id self) qs)))) in
    _ <- cache_set cache_key budget 3600 ;;
    ret budget
  | Some budget => ret budget
  end.

End App5Cache.

(* ------------------------------------------------------------------ *)
(** ** App 5: the DataLoader *)

Module DataLoader.

Section Loader.
Variable V : Type.

(** A promise is either resolved with a value or pending; pending
    promises are told apart by the order of their creation. *)
Inductive Promise : Type :=
| Resolved (v : V)
| Pending (n : nat).

(** The loader's [queue] and [cache], the number of pending promises made
    so far, and the [promise.resolve(result)] calls made so far. *)
Record t : Type := {
  queue : list (Z * Promise);
  cache : list (Z * V);
  created : nat;
  resolve_calls : list (Promise * V)
}.

(** [DataLoader(batch_fn)] *)
Definition init : t :=
  {| queue := []; cache := []; created := 0; resolve_calls := [] |}.

(** [self.cache[key]] and [self.cache[key] = result] *)
Fixpoint cache_lookup (c : list (Z * V)) (key : Z) : option V :=
  match c with
  | [] => None
  | (k, v) :: c' => if k =? key then Some v else cache_lookup c' key
  end.

Definition cache_store (c : list (Z * V)) (key : Z) (v : V) : list (Z * V) :=
  (key, v) :: filter (fun kv => negb (fst kv =? key)) c.

Definition load (key : Z) (self : t) : Promise * t :=
  match cache_lookup (cache self) key with
  | Some v => (Resolved v, self)
  | None =>
    let promise := Pending (created self) in
    (promise,
     {| queue := queue self ++ [(key, promise)];
        cache := cache self;
        created := Datatypes.S (created self);
        resolve_calls := resolve_calls self |})
  end.

(** The loop of [dispatch] over [zip(self.queue, results)]. *)
Fixpoint settle (pairs : list ((Z * Promise) * V))
         (c : list (Z * V)) (calls : list (Promise * V))
  : list (Z * V) * list (Promise * V) :=
  match pairs with
  | [] => (c, calls)
  | ((key, promise), result) :: rest =>
    settle rest (cache_store c key result) (calls ++ [(promise, result)])
  end.

Definition dispatch (batch_fn : list Z -> list V) (self : t) : t :=
  match queue self with
  | [] => self
  | _ :: _ =>
    let keys := map fst (queue self) in
    let results := batch_fn keys in
    let (c, calls) :=
      settle (combine (queue self) results) (cache self) (resolve_calls self) in
    {| queue := [];
       cache := c;
       created := created self;
       resolve_calls := calls |}
  end.

End Loader.

End DataLoader.

(* ------------------------------------------------------------------ *)
(** ** Runtime lemmas *)

Lemma StronglySorted_weaken {A} (R1 R2 : A -> A -> Prop) (l : list A) :
  (forall a b, R1 a b -> R2 a b) -> StronglySorted R1 l -> StronglySorted R2 l.
Proof.
  intros Himp. induction 1 as [|x t Hs IH Hall]; constructor; [exact IH|].
  eapply Forall_impl; [|exact Hall]. intros b. apply Himp.
Qed.

Section SortFacts.
Context {A : Type}.
Variable le : A -> A -> bool.

Lemma insert_by_perm x (l : list A) : Permutation (insert_by le x l) (x :: l).
Proof.
  induction l as [|y t IH]; simpl.
  - apply Permutation_refl.
  - destruct (le x y).
    + apply Permutation_refl.
    + eapply perm_trans; [apply perm_skip, IH | apply perm_swap].
Qed.

Lemma sort_by_perm (l : list A) : Permutation (sort_by le l) l.
Proof.
  induction l as [|x t IH]; simpl.
  - constructor.
  - eapply perm_trans; [apply insert_by_perm | now apply perm_skip].
Qed.

Lemma sort_by_length (l : list A) : List.length (sort_by le l) = List.length l.
Proof. apply Permutation_length, sort_by_perm. Qed.

Lemma sort_by_In x (l : list A) : In x (sort_by le l) <-> In x l.
Proof.
  split; apply Permutation_in;
    [apply sort_by_perm | apply Permutation_sym, sort_by_perm].
Qed.

(** With a total, transitive order the result is sorted. *)
Hypothesis le_total : forall a b, le a b = true \/ le b a = true.
Hypothesis le_trans : forall a b c, le a b = true -> le b c = true -> le a c = true.

Lemma insert_by_sorted x (l : list A) :
  StronglySorted (fun a b => le a b = true) l ->
  StronglySorted (fun a b => le a b = true) (insert_by le x l).
Proof.
  induction 1 as [|y t Hs IH Hall]; simpl.
  - repeat constructor.
  - destruct (le x y) eqn:E.
    + constructor; [now constructor|].
      constructor; [exact E|].
      eapply Forall_impl; [|exact Hall]. intros z; now apply le_trans.
    + constructor; [exact IH|].
      assert (Hyx : le y x = true) by (destruct (le_total x y); congruence).
      eapply Permutation_Forall; [apply Permutation_sym, insert_by_perm|].
      now constructor.
Qed.

Lemma sort_by_sorted (l : list A) :
  StronglySorted (fun a b => le a b = true) (sort_by le l).
Proof.
  induction l; simpl; [constructor | now apply insert_by_sorted].
Qed.

End SortFacts.

Section PaginationFacts.
Import App3.

Lemma filter_filter {A} (p q : A -> bool) (l : list A) :
  filter q (filter p l) = filter (fun x => p x && q x) l.
Proof.
  induction l as [|x t IH]; simpl; [reflexivity|].
  destruct (p x); simpl; [destruct (q x)|]; now rewrite IH.
Qed.

Lemma filter_true {A} (l : list A) : filter (fun _ => true) l = l.
Proof. induction l; simpl; congruence. Qed.

(** [dict.get] on [field_map] lands on a sortable column. *)
Lemma field_map_get_cases f :
  In (dict_get field_map f "created_at") allow_list.
Proof.
  unfold dict_get, allow_list, field_map; cbn [dict_lookup map fst In].
  repeat match goal with
         | |- context [(?k =? f)%string] => destruct (k =? f)%string
         end; auto 6.
Qed.

Lemma field_map_get_unknown f :
  ~ In f allow_list -> dict_get field_map f "created_at" = "created_at".
Proof.
  unfold dict_get, allow_list, field_map; cbn [dict_lookup map fst In].
  intros Hn.
  repeat match goal with
         | |- context [(?k =? f)%string] =>
           destruct (String.eqb_spec k f); [exfalso; apply Hn; auto 6|]
         end.
  reflexivity.
Qed.

(** The ordering step always succeeds and is a sort of its input. *)
Lemma apply_sort_total sort qs :
  exists le, apply_sort sort qs = Return (sort_by le qs).
Proof.
  destruct sort as [[f o]|]; cbn [apply_sort SortInput.field SortInput.order].
  - pose proof (field_map_get_cases f) as Hin.
    change allow_list with ["name"; "price"; "rating"; "created_at"] in Hin.
    cbn [In] in Hin.
    destruct o as [o|]; [destruct (o =? "desc")%string|];
      destruct Hin as [<-|[<-|[<-|[<-|[]]]]]; eexists; reflexivity.
  - eexists; reflexivity.
Qed.

Lemma apply_sort_view filters sort s :
  apply_sort sort (apply_filters filters (products s))
  = Return (filtered_view filters sort s).
Proof.
  unfold filtered_view.
  destruct (apply_sort_total sort (apply_filters filters (products s)))
    as [le ->].
  reflexivity.
Qed.

Lemma filtered_view_perm filters sort s :
  Permutation (filtered_view filters sort s)
              (apply_filters filters (products s)).
Proof.
  unfold filtered_view.
  destruct (apply_sort_total sort (apply_filters filters (products s)))
    as [le ->].
  apply sort_by_perm.
Qed.

(** Floor division by a positive page size computes the ceiling. *)
Lemma ceil_div_floordiv n d :
  1 <= d -> (n + d - 1) / d = Spec.ceil_div n d.
Proof.
  intros Hd. unfold Spec.ceil_div, Qceiling, Qfloor. simpl.
  rewrite Z2Pos.id by lia.
  symmetry. apply Z.div_unique with (r := (n + d - 1) - d * (- (- n / d))).
  - left.
    pose proof (Z.div_mod (- n) d ltac:(lia)) as E.
    pose proof (Z.mod_pos_bound (- n) d ltac:(lia)) as B.
    nia.
  - ring.
Qed.

Lemma ceil_div_zero d : 1 <= d -> Spec.ceil_div 0 d = 0.
Proof.
  intros Hd. rewrite <- ceil_div_floordiv by lia.
  apply Z.div_small. lia.
Qed.

(** The ceiling is the least number of pages that holds [n] records. *)
Lemma ceil_div_least n d :
  1 <= d ->
  n <= Spec.ceil_div n d * d /\ (Spec.ceil_div n d - 1) * d < n.
Proof.
  intros Hd. rewrite <- ceil_div_floordiv by lia.
  pose proof (Z.div_mod (n + d - 1) d ltac:(lia)) as E.
  pose proof (Z.mod_pos_bound (n + d - 1) d ltac:(lia)) as B.
  nia.
Qed.

(** What the resolver computes once the page size is not zero and the
    slice bounds are not negative. *)
Lemma resolve_products_filtered_run filters sort page page_size s :
  page_size <> 0 ->
  0 <= (page - 1) * page_size ->
  0 <= (page - 1) * page_size + page_size ->
  let view := filtered_view filters sort s in
  let total_pages := (len view + page_size - 1) / page_size in
  let offset := (page - 1) * page_size in
  resolve_products_filtered filters sort page page_size s =
  (Return
     {| ProductPaginatedType.items :=
          firstn (Z.to_nat (offset + page_size - offset))
                 (skipn (Z.to_nat offset) view);
        ProductPaginatedType.total_count := len view;
        ProductPaginatedType.page := page;
        ProductPaginatedType.page_size := page_size;
        ProductPaginatedType.total_pages := total_pages;
        ProductPaginatedType.has_next := page <? total_pages;
        ProductPaginatedType.has_previous := page >? 1 |}, s).
Proof.
  intros Hz Ho Hs. cbv zeta.
  unfold resolve_products_filtered, bind, objects_all, lift, ret,
    prefetch_related, select_related.
  rewrite apply_sort_view.
  unfold floordiv. destruct (Z.eqb_spec page_size 0) as [|_]; [contradiction|].
  unfold qs_slice.
  destruct (Z.ltb_spec ((page - 1) * page_size) 0); [lia|].
  destruct (Z.ltb_spec ((page - 1) * page_size + page_size) 0); [lia|].
  reflexivity.
Qed.

Lemma skipn_beyond {A} (l : list A) n :
  (List.length l <= n)%nat -> skipn n l = [].
Proof. apply skipn_all2. Qed.

End PaginationFacts.

(* ------------------------------------------------------------------ *)
(** ** Offset pagination *)

Section OffsetPaginator.
Import App3 Fixtures.

(** C2. For a request with [page >= 1] and [page_size >= 1] the offset
    paginator returns, over the filtered and ordered view,
    [total_pages = ceil(total_count / page_size)] (0 when there are no
    records), [items = view[offset : offset + page_size]] with
    [offset = (page - 1) * page_size] (empty once the offset reaches
    [total_count]), [has_previous = (page > 1)] and
    [has_next = (page < total_pages)]. *)
Theorem offset_paginator_page filters sort page page_size s :
  1 <= page -> 1 <= page_size ->
  let view := filtered_view filters sort s in
  let total_count := len view in
  let offset := (page - 1) * page_size in
  exists r,
    resolve_products_filtered filters sort page page_size s = (Return r, s)
    /\ ProductPaginatedType.total_count r = total_count
    /\ ProductPaginatedType.total_pages r
       = Spec.ceil_div total_count page_size
    /\ (total_count = 0 -> ProductPaginatedType.total_pages r = 0)
    /\ ProductPaginatedType.items r
       = Spec.slice view offset (offset + page_size)
    /\ (total_count <= offset -> ProductPaginatedType.items r = [])
    /\ (ProductPaginatedType.has_previous r = true <-> 1 < page)
    /\ (ProductPaginatedType.has_next r = true
        <-> page < ProductPaginatedType.total_pages r).
Proof.
  intros Hp Hs view total_count offset.
  eexists. split.
  { apply resolve_products_filtered_run; nia. }
  cbn [ProductPaginatedType.total_count ProductPaginatedType.total_pages
       ProductPaginatedType.items ProductPaginatedType.has_previous
       ProductPaginatedType.has_next].
  fold view. fold offset. fold total_count.
  assert (Hoff : 0 <= offset) by (unfold offset; nia).
  repeat split.
  - now apply ceil_div_floordiv.
  - intros ->. apply Z.div_small. lia.
  - unfold Spec.slice. f_equal. rewrite <- Z2Nat.inj_sub by exact Hoff. reflexivity.
  - intros Hge. rewrite skipn_beyond; [apply firstn_nil|].
    unfold total_count, len in Hge. lia.
  - intros H. apply Z.gtb_lt in H. lia.
  - intros H. apply Z.gtb_lt. lia.
  - apply Z.ltb_lt.
  - apply Z.ltb_lt.
Qed.

Lemma offset_paginator_page_witness :
  exists r,
    resolve_products_filtered None None 3 2 five_products
    = (Return r, five_products)
    /\ ProductPaginatedType.total_pages r = 3
    /\ ProductPaginatedType.items r = [tshirt]
    /\ ProductPaginatedType.has_next r = false.
Proof.
  destruct (@offset_paginator_page None None 3 2 five_products)
    as (r & Hr & _ & Hpages & _ & Hitems & _ & _ & _); [lia | lia |].
  exists r. split; [exact Hr|].
  vm_compute in Hr. injection Hr as <-. repeat split.
Defined.

(** C7 (as amended). The resolver uses [page] and [page_size] as
    supplied; it neither clamps nor validates them and knows no maximum
    page size.  For [page >= 1] and [page_size >= 1] the pagination
    arithmetic is total: a page is returned, its offset is not negative,
    and the request's [page] and [page_size] are echoed unchanged. *)
Theorem pagination_total_on_valid_request filters sort page page_size s :
  1 <= page -> 1 <= page_size ->
  exists r,
    resolve_products_filtered filters sort page page_size s = (Return r, s)
    /\ 0 <= (page - 1) * page_size
    /\ ProductPaginatedType.page r = page
    /\ ProductPaginatedType.page_size r = page_size
    /\ len (ProductPaginatedType.items r) <= page_size.
Proof.
  intros Hp Hs. eexists. split.
  { apply resolve_products_filtered_run; nia. }
  cbn [ProductPaginatedType.page ProductPaginatedType.page_size
       ProductPaginatedType.items].
  repeat split; try nia.
  unfold len. rewrite length_firstn. lia.
Qed.

Lemma pagination_total_on_valid_request_witness :
  exists r,
    resolve_products_filtered None None 1 1000000 five_products
    = (Return r, five_products)
    /\ ProductPaginatedType.page_size r = 1000000.
Proof.
  destruct (@pagination_total_on_valid_request None None 1 1000000
                                               five_products)
    as (r & Hr & _ & _ & Hsize & _); [lia | lia |].
  exists r. split; [exact Hr | exact Hsize].
Defined.

(** A page size of zero is not caught: the resolver raises. *)
Lemma page_size_zero_raises :
  resolve_products_filtered None None 1 0 five_products
  = (Raise ZeroDivisionError, five_products).
Proof. reflexivity. Qed.

(** Negative page sizes and non-positive pages reach the slice. *)
Example negative_page_size_raises :
  resolve_products_filtered None None 1 (-2) five_products
  = (Raise NegativeIndexing, five_products).
Proof. reflexivity. Qed.

(** C8. A page number beyond [total_pages] is not an error: the items
    are empty and [has_next] is false.  With 5 records and
    [page_size = 2], page 5 has no items, no next and a previous page. *)
Theorem page_beyond_total_pages :
  (forall filters sort page page_size s,
      1 <= page_size ->
      Spec.ceil_div (len (filtered_view filters sort s)) page_size < page ->
      exists r,
        resolve_products_filtered filters sort page page_size s
        = (Return r, s)
        /\ ProductPaginatedType.items r = []
        /\ ProductPaginatedType.has_next r = false)
  /\ resolve_products_filtered None None 5 2 five_products
     = (Return
          {| ProductPaginatedType.items := [];
             ProductPaginatedType.total_count := 5;
             ProductPaginatedType.page := 5;
             ProductPaginatedType.page_size := 2;
             ProductPaginatedType.total_pages := 3;
             ProductPaginatedType.has_next := false;
             ProductPaginatedType.has_previous := true |}, five_products).
Proof.
  split; [|reflexivity].
  intros filters sort page page_size s Hs Hbeyond.
  set (view := filtered_view filters sort s) in *.
  pose proof (@ceil_div_least (len view) page_size Hs) as [Hle _].
  assert (Hnn : 0 <= Spec.ceil_div (len view) page_size).
  { unfold len in *. nia. }
  eexists. split.
  { apply resolve_products_filtered_run; nia. }
  cbn [ProductPaginatedType.items ProductPaginatedType.has_next].
  fold view. split.
  - rewrite skipn_beyond; [apply firstn_nil|].
    unfold len in *. nia.
  - rewrite ceil_div_floordiv by exact Hs. apply Z.ltb_ge. lia.
Qed.

Lemma page_beyond_total_pages_witness :
  exists r,
    resolve_products_filtered (Some price_25_to_100) None 4 2 five_products
    = (Return r, five_products)
    /\ ProductPaginatedType.items r = []
    /\ ProductPaginatedType.has_next r = false.
Proof.
  apply (proj1 page_beyond_total_pages); [lia | vm_compute; reflexivity].
Defined.

End OffsetPaginator.

(* ------------------------------------------------------------------ *)
(** ** Filtering *)

Section FilterFacts.
Import App3 Fixtures.

(** One optional filter stage is a filter by the optional predicate. *)
Lemma stage_holds {V} (x : option V) (pred : V -> Product.t -> bool) qs :
  match x with
  | Some v => qs_filter (pred v) qs
  | None => qs
  end = filter (fun p => Spec.holds x (fun v => pred v p)) qs.
Proof.
  destruct x; simpl; [reflexivity | now rewrite filter_true].
Qed.

Lemma drop_falsy_name f :
  ProductFilterInput.name (Spec.drop_falsy f)
  = if truthy_str (ProductFilterInput.name f)
    then ProductFilterInput.name f else None.
Proof.
  unfold Spec.drop_falsy.
  destruct (truthy_str (ProductFilterInput.name f)) eqn:En;
    cbn [Spec.with_name ProductFilterInput.category_id];
    destruct (truthy_int (ProductFilterInput.category_id f));
    cbn [Spec.with_name Spec.with_category_id ProductFilterInput.name];
    now rewrite ?En.
Qed.

Lemma drop_falsy_category_id f :
  ProductFilterInput.category_id (Spec.drop_falsy f)
  = if truthy_int (ProductFilterInput.category_id f)
    then ProductFilterInput.category_id f else None.
Proof.
  unfold Spec.drop_falsy.
  destruct (truthy_str (ProductFilterInput.name f));
    cbn [Spec.with_name ProductFilterInput.category_id];
    destruct (truthy_int (ProductFilterInput.category_id f)); reflexivity.
Qed.

Lemma drop_falsy_others f :
  ProductFilterInput.is_active (Spec.drop_falsy f)
  = ProductFilterInput.is_active f
  /\ ProductFilterInput.is_featured (Spec.drop_falsy f)
     = ProductFilterInput.is_featured f
  /\ ProductFilterInput.price_min (Spec.drop_falsy f)
     = ProductFilterInput.price_min f
  /\ ProductFilterInput.price_max (Spec.drop_falsy f)
     = ProductFilterInput.price_max f
  /\ ProductFilterInput.rating_min (Spec.drop_falsy f)
     = ProductFilterInput.rating_min f
  /\ ProductFilterInput.has_stock (Spec.drop_falsy f)
     = ProductFilterInput.has_stock f.
Proof.
  unfold Spec.drop_falsy.
  destruct (truthy_str (ProductFilterInput.name f));
    cbn [Spec.with_name ProductFilterInput.category_id];
    destruct (truthy_int (ProductFilterInput.category_id f));
    repeat split.
Qed.

Lemma stage_has_stock (x : option bool) (qs : list Product.t) :
  match x with
  | Some true => qs_filter (fun p => 0 <? Product.stock_quantity p) qs
  | Some false => qs_filter (fun p => Product.stock_quantity p =? 0) qs
  | None => qs
  end
  = filter (fun p => Spec.holds x (fun b : bool =>
                        if b then 0 <? Product.stock_quantity p
                        else Product.stock_quantity p =? 0)) qs.
Proof.
  destruct x as [[|]|]; simpl;
    [reflexivity | reflexivity | now rewrite filter_true].
Qed.

(** The chain of queryset filters is one filter by the conjunction of
    the predicates that are applied. *)
Lemma apply_filters_filter f qs :
  apply_filters (Some f) qs
  = filter (Spec.satisfies_supplied (Spec.drop_falsy f)) qs.
Proof.
  unfold apply_filters, Spec.satisfies_supplied. cbv zeta.
  rewrite stage_has_stock.
  rewrite (stage_holds _ (fun v p => Qle_bool v (Product.rating p))).
  rewrite (stage_holds _ (fun v p => Qle_bool (Product.price p) v)).
  rewrite (stage_holds _ (fun v p => Qle_bool v (Product.price p))).
  rewrite (stage_holds _ (fun b p => Bool.eqb (Product.is_featured p) b)).
  rewrite (stage_holds _ (fun b p => Bool.eqb (Product.is_active p) b)).
  destruct (drop_falsy_others f) as (-> & -> & -> & -> & -> & ->).
  rewrite drop_falsy_name, drop_falsy_category_id.
  destruct (ProductFilterInput.category_id f) as [c|];
    [destruct (truthy_int (Some c))|];
    (destruct (ProductFilterInput.name f) as [n|];
     [destruct (truthy_str (Some n))|]);
    unfold qs_filter; rewrite !filter_filter; apply filter_ext; intros p;
    cbn [Spec.holds andb]; rewrite ?andb_true_r, ?andb_assoc; reflexivity.
Qed.

(** C3 (as stated) fails where a falsy value is supplied: with
    [category_id = 0] no record has category 0, yet all are returned. *)
Lemma category_zero_not_applied :
  In tshirt (apply_filters (Some category_zero) (products five_products))
  /\ Spec.satisfies_supplied category_zero tshirt = false.
Proof. split; [vm_compute; tauto | reflexivity]. Qed.

(** C3 (as amended). A record appears in the filtered result if and only
    if it satisfies every supplied predicate (logical AND), where a
    supplied [name] of "" and a supplied [category_id] of 0 count as not
    supplied; [price_min] and [price_max] are inclusive bounds; and for
    products priced 19.99, 29.99, 49.99, 99.99 and 999.99 the filter
    [price_min = 25, price_max = 100] sorted by price ascending yields
    exactly 29.99, 49.99, 99.99 in that order. *)
Theorem filter_correctness :
  (forall f qs p,
      In p (apply_filters (Some f) qs)
      <-> In p qs /\ Spec.satisfies_supplied (Spec.drop_falsy f) p = true)
  /\ (forall qs, apply_filters None qs = qs)
  /\ (forall p qs,
         In p (apply_filters
                 (Some (price_between (Product.price p) (Product.price p)))
                 (p :: qs)))
  /\ (exists r,
         resolve_products_filtered (Some price_25_to_100) (Some by_price_asc)
                                   1 10 five_products
         = (Return r, five_products)
         /\ ProductPaginatedType.items r = [mug; python_book; headphones]
         /\ map Product.price (ProductPaginatedType.items r)
            = [(2999 # 100)%Q; (4999 # 100)%Q; (9999 # 100)%Q]
         /\ ProductPaginatedType.total_count r = 3).
Proof.
  split; [|split; [|split]].
  - intros f qs p. rewrite apply_filters_filter. apply filter_In.
  - reflexivity.
  - intros p qs. rewrite apply_filters_filter. apply filter_In.
    split; [now left|].
    unfold Spec.satisfies_supplied, Spec.drop_falsy, price_between.
    cbn. rewrite andb_true_r.
    assert (H : Qle_bool (Product.price p) (Product.price p) = true)
      by (apply Qle_bool_iff, Qle_refl).
    now rewrite H.
  - eexists. split; [reflexivity|]. repeat split.
Qed.

Lemma filter_correctness_witness :
  In mug (apply_filters (Some price_25_to_100) (products five_products)).
Proof.
  apply (proj1 filter_correctness price_25_to_100 (products five_products) mug).
  split; [vm_compute; tauto | reflexivity].
Defined.










End FilterFacts.

(* ------------------------------------------------------------------ *)
(** ** Cursor pagination *)

Section CursorPaginator.
Import App3 Fixtures.

(** [str] is one-to-one: the decimal rendering determines the integer. *)
Lemma str_inj a b : str a = str b -> a = b.
Proof.
  unfold str. intros E.
  assert (Hnz : forall z, Z.to_int z <> Decimal.Pos Decimal.Nil
                          /\ Z.to_int z <> Decimal.Neg Decimal.Nil).
  { intros [|p|p]; simpl; split; try discriminate; intros [= H];
      now apply DecimalPos.Unsigned.to_uint_nonnil in H. }
  apply (f_equal NilZero.int_of_string) in E.
  rewrite !NilZero.isi in E by apply Hnz.
  injection E as E.
  rewrite <- (DecimalZ.of_to a), <- (DecimalZ.of_to b). now rewrite E.
Qed.

(** What the cursor resolver computes when [first] is not negative. *)
Lemma resolve_products_paginated_run name category_id is_active first after s :
  0 <= first ->
  let view := cursor_view name category_id is_active s in
  let edges := map make_edge (firstn (Z.to_nat (first - 0)) view) in
  resolve_products_paginated name category_id is_active first after s =
  (Return
     {| ProductConnection.edges := edges;
        ProductConnection.page_info :=
          {| PageInfo.has_next_page := len view >? first;
             PageInfo.has_previous_page := false;
             PageInfo.start_cursor :=
               option_map ProductEdge.cursor (first_or_none edges);
             PageInfo.end_cursor :=
               option_map ProductEdge.cursor (last_or_none edges) |};
        ProductConnection.total_count := len view |}, s).
Proof.
  intros Hf. cbv zeta.
  unfold resolve_products_paginated, bind, objects_all, lift, ret,
    prefetch_related, select_related, qs_slice.
  change (order_by "-created_at"
                   (cursor_filters name category_id is_active (products s)))
    with (Return (cursor_view name category_id is_active s)).
  cbn [Z.ltb Z.compare orb].
  destruct (Z.ltb_spec first 0); [lia|].
  reflexivity.
Qed.

(** The edges of any returned page are [make_edge] of their nodes. *)
Lemma returned_edges name category_id is_active first after s conn :
  fst (resolve_products_paginated name category_id is_active first after s)
  = Return conn ->
  exists items, ProductConnection.edges conn = map make_edge items.
Proof.
  unfold resolve_products_paginated, bind, objects_all, lift, ret.
  destruct (order_by _ _) as [view|]; [|discriminate].
  destruct (qs_slice _ _ _) as [items|]; [|discriminate].
  cbn [fst]. intros [= <-]. now exists items.
Qed.

(** C1 (as stated) fails: a malformed [after] token raises nothing and
    the first page is served, exactly as without a cursor. *)
Lemma malformed_cursor_ignored :
  resolve_products_paginated None None None 2 (Some "not-a-cursor")
                             five_products
  = resolve_products_paginated None None None 2 None five_products
  /\ exists conn,
      resolve_products_paginated None None None 2 (Some "not-a-cursor")
                                 five_products
      = (Return conn, five_products)
      /\ map ProductEdge.node (ProductConnection.edges conn)
         = [laptop; headphones].
Proof. split; [reflexivity|]. eexists. split; reflexivity. Qed.

(** C1 (as amended). The cursor resolver never decodes or validates
    [after]: whatever token is supplied, malformed or not, the result is
    the one without a cursor.  For [first >= 0] that is the first
    [first] records of the filtered view, newest first, with
    [has_previous_page = false]; no error is raised. *)
Theorem after_cursor_not_decoded name category_id is_active first after s :
  0 <= first ->
  exists conn,
    resolve_products_paginated name category_id is_active first after s
    = (Return conn, s)
    /\ resolve_products_paginated name category_id is_active first None s
       = (Return conn, s)
    /\ map ProductEdge.node (ProductConnection.edges conn)
       = firstn (Z.to_nat first)
                (cursor_view name category_id is_active s)
    /\ PageInfo.has_previous_page (ProductConnection.page_info conn) = false.
Proof.
  intros Hf. eexists. split; [|split; [|split]].
  - now apply resolve_products_paginated_run.
  - now apply resolve_products_paginated_run.
  - cbn [ProductConnection.edges]. rewrite map_map. cbn [make_edge ProductEdge.node].
    rewrite map_id. now rewrite Z.sub_0_r.
  - reflexivity.
Qed.

Lemma after_cursor_not_decoded_witness :
  exists conn,
    resolve_products_paginated None None (Some true) 1 (Some "cursor_4")
                               five_products
    = (Return conn, five_products)
    /\ map ProductEdge.node (ProductConnection.edges conn) = [laptop].
Proof.
  destruct (@after_cursor_not_decoded None None (Some true) 1
                                       (Some "cursor_4") five_products)
    as (conn & Hrun & _ & Hnodes & _); [lia|].
  exists conn. split; [exact Hrun | exact Hnodes].
Defined.

(** C5 (as stated) fails: the record with id 1 gets the same cursor
    whatever its sort key, so no decoder can recover the key. *)
Lemma cursor_forgets_sort_key : ~ Spec.cursor_encodes_sort_key_and_id.
Proof.
  intros [decode Hdec].
  pose proof (Hdec None None None 1 None only_tshirt _ (make_edge tshirt)
                   eq_refl (or_introl eq_refl)) as H1.
  pose proof (Hdec None None None 1 None only_tshirt_relisted _
                   (make_edge tshirt_relisted)
                   eq_refl (or_introl eq_refl)) as H2.
  vm_compute in H1, H2. congruence.
Qed.

(** C5 (as amended). On every page returned by the cursor paginator,
    each edge's cursor is "cursor_" followed by the decimal record
    identifier of its node: a deterministic encoding of the identifier
    alone, from which the identifier (and nothing about the sort key) can
    be read back. *)
Theorem cursor_is_record_id :
  (forall name category_id is_active first after s conn e,
      fst (resolve_products_paginated name category_id is_active
                                      first after s) = Return conn ->
      In e (ProductConnection.edges conn) ->
      ProductEdge.cursor e
      = "cursor_" ++ str (Product.id (ProductEdge.node e)))
  /\ (forall p q,
         ProductEdge.cursor (make_edge p) = ProductEdge.cursor (make_edge q)
         <-> Product.id p = Product.id q).
Proof.
  split.
  - intros name category_id is_active first after s conn e Hrun Hin.
    destruct (returned_edges _ _ _ _ _ _ Hrun) as [items Hedges].
    rewrite Hedges in Hin. apply in_map_iff in Hin.
    destruct Hin as (item & <- & _). reflexivity.
  - intros p q. cbn [make_edge ProductEdge.cursor]. split.
    + intros E. apply str_inj. now injection E.
    + now intros ->.
Qed.

Lemma cursor_is_record_id_witness :
  ProductEdge.cursor (make_edge laptop) = "cursor_5".
Proof.
  refine (proj1 cursor_is_record_id None None None 2 None five_products
                _ (make_edge laptop) _ _).
  - reflexivity.
  - left. reflexivity.
Defined.

End CursorPaginator.

(* ------------------------------------------------------------------ *)
(** ** Sorting *)

Section SortField.
Import App3 Fixtures.

(** C4 (as stated) fails: a field outside the allow-list raises nothing;
    the products come back ordered by creation time. *)
Lemma unknown_sort_field_falls_back :
  ~ In (SortInput.field by_unknown_field) allow_list
  /\ resolve_products_filtered None (Some by_unknown_field) 1 10 five_products
     = resolve_products_filtered None (Some by_created_at) 1 10 five_products
  /\ exists r,
      resolve_products_filtered None (Some by_unknown_field) 1 10
                                five_products
      = (Return r, five_products)
      /\ ProductPaginatedType.items r
         = [tshirt; mug; python_book; headphones; laptop].
Proof.
  split; [|split].
  - cbn. intros [H|[H|[H|[H|[]]]]]; discriminate H.
  - reflexivity.
  - eexists. split; reflexivity.
Qed.

(** C4 (as amended). A sort field outside the allow-list
    {name, price, rating, created_at} does not make the resolution fail:
    the field is replaced by [created_at], the default of the field
    map, and the view is the filtered set ordered by creation time in
    the requested direction. *)
Theorem unknown_sort_field_uses_created_at field order qs :
  ~ In field allow_list ->
  let sort := {| SortInput.field := field; SortInput.order := order |} in
  let default :=
      {| SortInput.field := "created_at"; SortInput.order := order |} in
  exists view,
    apply_sort (Some sort) qs = Return view
    /\ apply_sort (Some default) qs = Return view
    /\ Permutation view qs
    /\ StronglySorted
         (fun a b =>
            if Spec.is_desc order
            then Product.created_at b <= Product.created_at a
            else Product.created_at a <= Product.created_at b)
         view
    /\ forall filters page page_size s,
        resolve_products_filtered filters (Some sort) page page_size s
        = resolve_products_filtered filters (Some default) page page_size s.
Proof.
  intros Hn sort default.
  assert (Hsame : forall l, apply_sort (Some sort) l
                            = apply_sort (Some default) l).
  { intros l. unfold apply_sort, sort, default.
    cbn [SortInput.field SortInput.order].
    now rewrite (field_map_get_unknown Hn). }
  assert (Hrun : apply_sort (Some default) qs
                 = Return (sort_by (if Spec.is_desc order
                                    then descending Spec.created_at_le
                                    else Spec.created_at_le) qs)).
  { unfold apply_sort, default, Spec.is_desc.
    cbn [SortInput.field SortInput.order].
    destruct order as [o|]; [destruct (o =? "desc")%string|]; reflexivity. }
  eexists. split; [|split; [|split; [|split]]].
  - rewrite Hsame. exact Hrun.
  - exact Hrun.
  - apply sort_by_perm.
  - destruct (Spec.is_desc order).
    + eapply StronglySorted_weaken;
        [|apply (sort_by_sorted (descending Spec.created_at_le))].
      * intros a b H. unfold descending, Spec.created_at_le in H.
        now apply Z.leb_le in H.
      * intros a b. unfold descending, Spec.created_at_le.
        rewrite !Z.leb_le. lia.
      * intros a b c. unfold descending, Spec.created_at_le.
        rewrite !Z.leb_le. lia.
    + eapply StronglySorted_weaken;
        [|apply (sort_by_sorted Spec.created_at_le)].
      * intros a b H. unfold Spec.created_at_le in H. now apply Z.leb_le in H.
      * intros a b. unfold Spec.created_at_le. rewrite !Z.leb_le. lia.
      * intros a b c. unfold Spec.created_at_le. rewrite !Z.leb_le. lia.
  - intros filters page page_size s.
    unfold resolve_products_filtered, bind, objects_all, lift.
    now rewrite Hsame.
Qed.

Lemma unknown_sort_field_uses_created_at_witness :
  exists view,
    apply_sort (Some by_unknown_field) (products five_products) = Return view
    /\ Permutation view (products five_products).
Proof.
  destruct (@unknown_sort_field_uses_created_at
              "stock_quantity" (Some "asc") (products five_products))
    as (view & Hrun & _ & Hperm & _).
  - cbn. intros [H|[H|[H|[H|[]]]]]; discriminate H.
  - exists view. split; [exact Hrun | exact Hperm].
Defined.

End SortField.

(* ------------------------------------------------------------------ *)
(** ** Aggregates *)

Section Aggregates.
Import Fixtures.

(** C6 (as stated) fails for the average product price: over no
    products the resolver answers the number 0, not null. *)
Lemma average_of_no_products_is_zero :
  App3.products empty_store = []
  /\ App3.resolve_avg_product_price empty_store
     = (Return (Some (0 # 1)%Q), empty_store)
  /\ fst (App3.resolve_avg_product_price empty_store) <> Return None.
Proof. repeat split. discriminate. Qed.

(** C6 (as amended). Over zero matching records the performance summary
    reports count 0 and null average, minimum and maximum.  The average
    product price is the exception: it never reports null, and over an
    empty product set it reports the number 0. *)
Theorem empty_set_aggregates :
  (forall s metric_type,
      (forall r, In r (App5.performances s) ->
                 App5.Performance.metric_type r <> metric_type) ->
      App5.resolve_performance_summary metric_type s
      = (Return
           {| App5.PerformanceMetricsType.metric_type := metric_type;
              App5.PerformanceMetricsType.average_value := None;
              App5.PerformanceMetricsType.count := 0;
              App5.PerformanceMetricsType.max_value := None;
              App5.PerformanceMetricsType.min_value := None |}, s))
  /\ (forall s,
         App3.products s = [] ->
         App3.resolve_avg_product_price s = (Return (Some (0 # 1)%Q), s))
  /\ (forall s, fst (App3.resolve_avg_product_price s) <> Return None).
Proof.
  split; [|split].
  - intros s metric_type Hnone.
    unfold App5.resolve_performance_summary, bind, objects_all, ret, qs_filter.
    assert (E : filter
                  (fun r => (App5.Performance.metric_type r =? metric_type)%string)
                  (App5.performances s) = []).
    { induction (App5.performances s) as [|r t IH]; [reflexivity|].
      simpl. destruct (String.eqb_spec (App5.Performance.metric_type r)
                                       metric_type) as [Heq|_].
      - exfalso. apply (Hnone r); [now left | exact Heq].
      - apply IH. intros r' Hr'. apply Hnone. now right. }
    rewrite E. reflexivity.
  - intros s Hempty.
    unfold App3.resolve_avg_product_price, bind, objects_all, ret.
    rewrite Hempty. reflexivity.
  - intros s.
    unfold App3.resolve_avg_product_price, bind, objects_all, ret.
    cbn [fst].
    destruct (Avg (map App3.Product.price (App3.products s))) as [a|];
      [destruct (negb (Qeq_bool a 0))|]; discriminate.
Qed.

Lemma empty_set_aggregates_witness :
  exists r,
    App5.resolve_performance_summary "page_load" company = (Return r, company)
    /\ App5.PerformanceMetricsType.count r = 0
    /\ App5.PerformanceMetricsType.average_value r = None.
Proof.
  eexists. split; [|split].
  - apply (proj1 empty_set_aggregates company "page_load").
    intros r [<-|[<-|[]]]; discriminate.
  - reflexivity.
  - reflexivity.
Defined.

(** On matching records the summary does report numbers. *)
Example summary_of_api_metrics :
  App5.resolve_performance_summary "api_response" company
  = (Return
       {| App5.PerformanceMetricsType.metric_type := "api_response";
          App5.PerformanceMetricsType.average_value := Some (200 # 2)%Q;
          App5.PerformanceMetricsType.count := 2;
          App5.PerformanceMetricsType.max_value := Some (120 # 1)%Q;
          App5.PerformanceMetricsType.min_value := Some (80 # 1)%Q |},
     company).
Proof. vm_compute. reflexivity. Qed.

End Aggregates.

(* ------------------------------------------------------------------ *)
(** ** Single-record lookups *)

Section Lookups.
Import Fixtures.

Lemma qs_get_missing {A} `{Model A} (k : Z) (qs : list A) :
  (forall r, In r qs -> pk r <> k) -> qs_get k qs = Raise DoesNotExist.
Proof.
  intros Hnone. unfold qs_get.
  assert (E : filter (fun r => pk r =? k) qs = []).
  { induction qs as [|r t IH]; [reflexivity|].
    simpl. destruct (Z.eqb_spec (pk r) k) as [Heq|_].
    - exfalso. apply (Hnone r); [now left | exact Heq].
    - apply IH. intros r' Hr'. apply Hnone. now right. }
  now rewrite E.
Qed.

Lemma qs_get_found {A} `{Model A} (k : Z) (r : A) (before after : list A) :
  pk r = k ->
  (forall r', In r' (before ++ after) -> pk r' <> k) ->
  qs_get k (before ++ r :: after) = Return r.
Proof.
  intros Hk Hother. unfold qs_get.
  assert (E : forall l, (forall r', In r' l -> pk r' <> k) ->
                        filter (fun r => pk r =? k) l = []).
  { induction l as [|x t IH]; [reflexivity|]. intros Hl.
    simpl. destruct (Z.eqb_spec (pk x) k) as [Heq|_].
    - exfalso. apply (Hl x); [now left | exact Heq].
    - apply IH. intros r' Hr'. apply Hl. now right. }
  rewrite filter_app. simpl.
  rewrite (proj2 (Z.eqb_eq (pk r) k) Hk).
  rewrite !E; [reflexivity | |];
    intros r' Hr'; apply Hother, in_or_app; tauto.
Qed.

(** The common shape of the lookup resolvers. *)
Lemma lookup_missing {St A} `{Model A} (table : St -> list A)
      (via : list A -> list A) (k : Z) (s : St) :
  (forall qs, via qs = qs) ->
  (forall r, In r (table s) -> pk r <> k) ->
  try_except
    (qs <- objects_all table ;;
     r <- lift (qs_get k (via qs)) ;;
     ret (Some r))
    is_DoesNotExist
    (ret None) s
  = (Return None, s).
Proof.
  intros Hvia Hnone.
  unfold try_except, bind, objects_all, lift, ret.
  rewrite Hvia, (@qs_get_missing _ _ k (table s) Hnone). reflexivity.
Qed.

(** C9. Looking up a single author, book, product, category,
    organization, employee or project by an id that no record carries
    returns null, raises nothing, and leaves the store as it was. *)
Theorem lookup_of_missing_id_is_null
        (s1 : App1.Store) (s3 : App3.Store) (s5 : App5.Store) (id : Z) :
  ((forall r, In r (App1.authors s1) -> App1.Author.id r <> id) ->
   App1.resolve_author id s1 = (Return None, s1))
  /\ ((forall r, In r (App1.books s1) -> App1.Book.id r <> id) ->
      App1.resolve_book id s1 = (Return None, s1))
  /\ ((forall r, In r (App3.products s3) -> App3.Product.id r <> id) ->
      App3.resolve_product id s3 = (Return None, s3))
  /\ ((forall r, In r (App3.categories s3) -> App3.Category.id r <> id) ->
      App3.resolve_category id s3 = (Return None, s3))
  /\ ((forall r, In r (App5.organizations s5) ->
                 App5.Organization.id r <> id) ->
      App5.resolve_organization id s5 = (Return None, s5))
  /\ ((forall r, In r (App5.employees s5) -> App5.Employee.id r <> id) ->
      App5.resolve_employee id s5 = (Return None, s5))
  /\ ((forall r, In r (App5.projects s5) -> App5.Project.id r <> id) ->
      App5.resolve_project id s5 = (Return None, s5)).
Proof.
  repeat split; intros Hnone.
  - apply (lookup_missing App1.authors (fun qs => qs)); auto.
  - apply (lookup_missing App1.books select_related); auto.
  - apply (lookup_missing App3.products
                          (fun qs => prefetch_related (select_related qs)));
      auto.
  - apply (lookup_missing App3.categories (fun qs => qs)); auto.
  - apply (lookup_missing App5.organizations (fun qs => qs)); auto.
  - apply (lookup_missing App5.employees select_related); auto.
  - apply (lookup_missing App5.projects
                          (fun qs => select_related (prefetch_related qs)));
      auto.
Qed.

Lemma lookup_of_missing_id_is_null_witness :
  App1.resolve_author 99999 library = (Return None, library)
  /\ App3.resolve_product 99999 five_products = (Return None, five_products)
  /\ App5.resolve_organization 99999 company = (Return None, company).
Proof.
  pose proof (lookup_of_missing_id_is_null library five_products company 99999)
    as (Ha & _ & Hp & _ & Ho & _ & _).
  split; [|split].
  - apply Ha. intros r [<-|[]]. discriminate.
  - apply Hp. intros r [<-|[<-|[<-|[<-|[<-|[]]]]]]; discriminate.
  - apply Ho. intros r [<-|[]]. discriminate.
Defined.

(** A lookup by an id that is there returns the record. *)
Example lookup_of_present_id :
  App3.resolve_product 3 five_products
  = (Return (Some python_book), five_products).
Proof. reflexivity. Qed.

End Lookups.

(* ------------------------------------------------------------------ *)
(** ** Further properties of the offset paginator *)

Section OffsetPaginatorMore.
Import App3 App3More Fixtures.

Lemma In_firstn_In {A} (x : A) n l : In x (firstn n l) -> In x l.
Proof.
  intros H. rewrite <- (firstn_skipn n l). apply in_or_app. now left.
Qed.

Lemma In_skipn_In {A} (x : A) n l : In x (skipn n l) -> In x l.
Proof.
  intros H. rewrite <- (firstn_skipn n l). apply in_or_app. now right.
Qed.

(** Cutting a list into [m] chunks of [n] and gluing them back. *)
Lemma chunks_concat {A} (n m : nat) (l : list A) :
  (List.length l <= m * n)%nat ->
  List.concat (map (fun k => firstn n (skipn (k * n) l)) (seq 0 m)) = l.
Proof.
  revert l. induction m as [|m IH]; intros l Hlen.
  - destruct l; [reflexivity | simpl in Hlen; lia].
  - cbn [seq map List.concat]. rewrite <- seq_shift, map_map.
    cbn [Nat.mul skipn].
    transitivity ((firstn n l ++ skipn n l)%list); [|apply firstn_skipn].
    f_equal. etransitivity; [|apply (IH (skipn n l))].
    + f_equal. apply map_ext. intros k.
      replace (n + k * n)%nat with (k * n + n)%nat by lia.
      now rewrite skipn_skipn.
    + rewrite length_skipn. lia.
Qed.

(** The items of page [k >= 1] are the [k]-th chunk of the view. *)
Lemma page_items_chunk filters sort page_size s k :
  1 <= page_size -> 1 <= k ->
  page_items filters sort page_size s k
  = firstn (Z.to_nat page_size)
           (skipn (Z.to_nat (k - 1) * Z.to_nat page_size)
                  (filtered_view filters sort s)).
Proof.
  intros Hs Hk. unfold page_items.
  rewrite resolve_products_filtered_run by nia.
  cbn [fst ProductPaginatedType.items].
  f_equal; [f_equal; lia|]. f_equal. rewrite <- Z2Nat.inj_mul by lia. reflexivity.
Qed.

(** X2. On a valid request ([page >= 1], [page_size >= 1]) the page holds
    [min(page_size, records left from the offset)] items, and [has_next]
    is true exactly when records remain after this page. *)
Theorem page_length_and_has_next filters sort page page_size s :
  1 <= page -> 1 <= page_size ->
  exists r,
    resolve_products_filtered filters sort page page_size s = (Return r, s)
    /\ len (ProductPaginatedType.items r)
       = Z.min page_size
               (Z.max 0 (ProductPaginatedType.total_count r
                         - (page - 1) * page_size))
    /\ (ProductPaginatedType.has_next r = true
        <-> page * page_size < ProductPaginatedType.total_count r).
Proof.
  intros Hp Hs. eexists. split.
  { apply resolve_products_filtered_run; nia. }
  cbn [ProductPaginatedType.items ProductPaginatedType.total_count
       ProductPaginatedType.has_next].
  set (view := filtered_view filters sort s).
  split.
  - unfold len. rewrite length_firstn, length_skipn. nia.
  - rewrite Z.ltb_lt, ceil_div_floordiv by exact Hs.
    pose proof (@ceil_div_least (len view) page_size Hs) as [Hle Hlt].
    split; intros H; nia.
Qed.

Lemma page_length_and_has_next_witness :
  exists r,
    resolve_products_filtered None None 2 2 five_products
    = (Return r, five_products)
    /\ len (ProductPaginatedType.items r) = 2
    /\ ProductPaginatedType.has_next r = true.
Proof.
  destruct (@page_length_and_has_next None None 2 2 five_products)
    as (r & Hr & Hlen & Hnext); [lia | lia |].
  exists r. split; [exact Hr|].
  assert (E : ProductPaginatedType.total_count r = 5).
  { vm_compute in Hr. now injection Hr as <-. }
  rewrite E in *. split; [exact Hlen | apply Hnext; lia].
Defined.

(** X3. When the offset resolver raises: a page size of 0 gives
    [ZeroDivisionError]; a non-zero page size with a negative slice bound
    (page below 1 with a positive size, or page above 0 with a negative
    size) gives the slice's refusal of negative indexing; in every other
    case a page is returned.  The store is never changed. *)
Theorem offset_resolver_failures filters sort page page_size s :
  let offset := (page - 1) * page_size in
  (page_size = 0 ->
   resolve_products_filtered filters sort page page_size s
   = (Raise ZeroDivisionError, s))
  /\ (page_size <> 0 -> offset < 0 \/ offset + page_size < 0 ->
      resolve_products_filtered filters sort page page_size s
      = (Raise NegativeIndexing, s))
  /\ (page_size <> 0 -> 0 <= offset -> 0 <= offset + page_size ->
      exists r,
        resolve_products_filtered filters sort page page_size s
        = (Return r, s)).
Proof.
  intros offset. split; [|split].
  - intros ->.
    unfold resolve_products_filtered, bind, objects_all, lift,
      prefetch_related, select_related.
    rewrite apply_sort_view. reflexivity.
  - intros Hz Hneg.
    unfold resolve_products_filtered, bind, objects_all, lift,
      prefetch_related, select_related.
    rewrite apply_sort_view. unfold floordiv.
    destruct (Z.eqb_spec page_size 0) as [|_]; [contradiction|].
    unfold qs_slice. fold offset.
    destruct (Z.ltb_spec offset 0), (Z.ltb_spec (offset + page_size) 0);
      try reflexivity. lia.
  - intros Hz Ho Hs. eexists. now apply resolve_products_filtered_run.
Qed.

Lemma offset_resolver_failures_witness :
  resolve_products_filtered None None 0 3 five_products
  = (Raise NegativeIndexing, five_products).
Proof.
  apply (proj1 (proj2 (@offset_resolver_failures None None 0 3 five_products)));
    lia.
Defined.

(** The [total_count] of a returned page, in terms of the filter predicate. *)
Lemma returned_total_count f sort page page_size s r :
  fst (resolve_products_filtered (Some f) sort page page_size s) = Return r ->
  ProductPaginatedType.total_count r
  = len (filter (Spec.satisfies_supplied (Spec.drop_falsy f)) (products s)).
Proof.
  unfold resolve_products_filtered, bind, objects_all, lift, ret,
    prefetch_related, select_related.
  rewrite apply_sort_view.
  destruct (floordiv _ _) as [tp|]; [|discriminate].
  destruct (qs_slice _ _ _) as [items|]; [|discriminate].
  cbn [fst]. intros [= <-]. cbn [ProductPaginatedType.total_count].
  pose proof (filtered_view_perm (Some f) sort s) as Hperm.
  rewrite apply_filters_filter in Hperm.
  unfold count, len. now rewrite (Permutation_length Hperm).
Qed.

(** X4. Whatever the sort, page and page size, a returned page holds only
    records of the store that satisfy the applied filter predicates, and
    [total_count] is the number of store records that satisfy them. *)
Theorem returned_items_match_filters f sort page page_size s r :
  fst (resolve_products_filtered (Some f) sort page page_size s) = Return r ->
  (forall p, In p (ProductPaginatedType.items r) ->
             In p (products s)
             /\ Spec.satisfies_supplied (Spec.drop_falsy f) p = true)
  /\ ProductPaginatedType.total_count r
     = len (filter (Spec.satisfies_supplied (Spec.drop_falsy f)) (products s)).
Proof.
  intros Hrun. split; [|exact (returned_total_count _ _ _ _ _ Hrun)].
  revert Hrun.
  unfold resolve_products_filtered, bind, objects_all, lift, ret,
    prefetch_related, select_related.
  rewrite apply_sort_view.
  destruct (floordiv _ _) as [tp|]; [|discriminate].
  destruct (qs_slice _ _ _) as [items|] eqn:Eslice; [|discriminate].
  cbn [fst]. intros [= <-]. cbn [ProductPaginatedType.items].
  pose proof (filtered_view_perm (Some f) sort s) as Hperm.
  rewrite apply_filters_filter in Hperm.
  intros p Hin. apply filter_In. apply (Permutation_in _ Hperm).
  unfold qs_slice in Eslice.
  destruct (_ || _); [discriminate|]. injection Eslice as <-.
  eapply In_skipn_In, In_firstn_In, Hin.
Qed.

Lemma returned_items_match_filters_witness :
  In mug (products five_products)
  /\ Spec.satisfies_supplied (Spec.drop_falsy price_25_to_100) mug = true.
Proof.
  apply (proj1 (@returned_items_match_filters
                  price_25_to_100 (Some by_price_asc) 1 1 five_products
                  _ eq_refl) mug).
  left. reflexivity.
Defined.

End OffsetPaginatorMore.

(* ------------------------------------------------------------------ *)
(** ** Orders of the sortable columns *)

Section ColumnOrders.
Import App3 App3More Fixtures.

Lemma string_compare_lt_trans s1 s2 s3 :
  String.compare s1 s2 = Lt -> String.compare s2 s3 = Lt ->
  String.compare s1 s3 = Lt.
Proof.
  revert s2 s3. induction s1 as [|a s1 IH]; intros [|b s2] [|c s3];
    simpl; try congruence.
  destruct (Ascii.compare a b) eqn:Eab; try discriminate;
    destruct (Ascii.compare b c) eqn:Ebc; try discriminate; intros H1 H2.
  - apply Ascii.compare_eq_iff in Eab, Ebc. subst.
    assert (E : Ascii.compare c c = Eq) by apply N.compare_refl.
    rewrite E. eapply IH; eassumption.
  - apply Ascii.compare_eq_iff in Eab. subst. now rewrite Ebc.
  - apply Ascii.compare_eq_iff in Ebc. subst. now rewrite Eab.
  - unfold Ascii.compare in *. rewrite N.compare_lt_iff in *.
    assert (E : (N_of_ascii a ?= N_of_ascii c)%N = Lt)
      by (apply N.compare_lt_iff; lia).
    now rewrite E.
Qed.

Lemma string_leb_trans s1 s2 s3 :
  (s1 <=? s2)%string = true -> (s2 <=? s3)%string = true ->
  (s1 <=? s3)%string = true.
Proof.
  unfold String.leb.
  destruct (String.compare s1 s2) eqn:E12; try discriminate;
    destruct (String.compare s2 s3) eqn:E23; try discriminate; intros _ _.
  - apply String.compare_eq_iff in E12. subst s1. now rewrite E23.
  - apply String.compare_eq_iff in E12. subst s1. now rewrite E23.
  - apply String.compare_eq_iff in E23. subst s3. now rewrite E12.
  - now rewrite (string_compare_lt_trans _ _ _ E12 E23).
Qed.

Lemma Qle_bool_total a b : Qle_bool a b = true \/ Qle_bool b a = true.
Proof.
  rewrite !Qle_bool_iff. destruct (Qlt_le_dec a b) as [H|H];
    [left; now apply Qlt_le_weak | now right].
Qed.

Lemma Qle_bool_trans a b c :
  Qle_bool a b = true -> Qle_bool b c = true -> Qle_bool a c = true.
Proof. rewrite !Qle_bool_iff. apply Qle_trans. Qed.

(** Every column order is total and transitive. *)
Lemma columns_orders field le :
  dict_lookup columns field = Some le ->
  (forall a b, le a b = true \/ le b a = true)
  /\ (forall a b c, le a b = true -> le b c = true -> le a c = true).
Proof.
  unfold columns. cbn [dict_lookup].
  repeat match goal with
         | |- context [(?k =? field)%string] => destruct (k =? field)%string
         end; intros [= <-]; split; intros; cbv beta in *;
    try solve [ rewrite ?Z.leb_le in *; lia
              | apply String.leb_total
              | eapply string_leb_trans; eassumption
              | apply Qle_bool_total
              | eapply Qle_bool_trans; eassumption ].
Qed.

(** X5. The view is the filtered set reordered, never changed: with a
    sort on an allow-listed field it is ordered by that column, descending
    exactly when [order] is the string "desc" (any other or no [order],
    "DESC" included, means ascending); without a sort it is ordered by
    creation time, newest first. *)
Theorem view_sorted_as_requested :
  (forall field order qs,
      In field allow_list ->
      exists (le : Product.t -> Product.t -> bool) (view : list Product.t),
        dict_lookup columns field = Some le
        /\ apply_sort (Some {| SortInput.field := field;
                               SortInput.order := order |}) qs
           = Return view
        /\ Permutation view qs
        /\ StronglySorted
             (fun a b => (if Spec.is_desc order then le b a else le a b) = true)
             view)
  /\ (forall qs,
         exists view,
           apply_sort None qs = Return view
           /\ Permutation view qs
           /\ StronglySorted
                (fun a b => Product.created_at b <= Product.created_at a) view).
Proof.
  split.
  - intros field order qs Hin.
    assert (Hcol : exists le : Product.t -> Product.t -> bool,
               dict_lookup columns field = Some le
               /\ dict_get field_map field "created_at" = field
               /\ forall desc : bool,
                   order_by ((if desc then "-" else "") ++ field)%string qs
                   = Return (sort_by (if desc then descending le else le) qs)).
    { change allow_list with ["name"; "price"; "rating"; "created_at"] in Hin.
      cbn [In] in Hin.
      destruct Hin as [<-|[<-|[<-|[<-|[]]]]]; eexists;
        (split; [reflexivity | split; [reflexivity | intros [|]; reflexivity]]). }
    destruct Hcol as (le & Hle & Hget & Horder).
    destruct (columns_orders _ Hle) as [Htot Htrans].
    exists le. eexists. split; [exact Hle|]. split; [|split].
    + unfold apply_sort. cbn [SortInput.field SortInput.order].
      rewrite Hget.
      replace (match order with
               | Some o => if (o =? "desc")%string then "-" else ""
               | None => ""
               end) with (if Spec.is_desc order then "-" else "")
        by (destruct order; reflexivity).
      apply Horder.
    + apply sort_by_perm.
    + destruct (Spec.is_desc order).
      * apply (sort_by_sorted (descending le)); unfold descending; auto.
        intros a b c H1 H2. eapply Htrans; eassumption.
      * now apply sort_by_sorted.
  - intros qs. eexists. split; [reflexivity|]. split; [apply sort_by_perm|].
    eapply StronglySorted_weaken;
      [|apply (sort_by_sorted
                 (descending (fun a b : Product.t =>
                                Product.created_at a <=? Product.created_at b)))].
    + intros a b H. unfold descending in H. now apply Z.leb_le in H.
    + intros a b. unfold descending. rewrite !Z.leb_le. lia.
    + intros a b c. unfold descending. rewrite !Z.leb_le. lia.
Qed.

End ColumnOrders.

(* ------------------------------------------------------------------ *)
(** ** Pages of one request *)

Section PagesOfOneRequest.
Import App3 App3More Fixtures.

Lemma apply_sort_order sort qs :
  apply_sort sort qs = Return (sort_by (sort_order sort) qs).
Proof.
  destruct sort as [[f o]|]; [|reflexivity].
  unfold apply_sort, sort_order. cbn [SortInput.field SortInput.order].
  pose proof (field_map_get_cases f) as Hin.
  change allow_list with ["name"; "price"; "rating"; "created_at"] in Hin.
  cbn [In] in Hin.
  destruct o as [o|]; cbn [Spec.is_desc]; [destruct (o =? "desc")%string|];
    destruct Hin as [<-|[<-|[<-|[<-|[]]]]]; reflexivity.
Qed.

Lemma sort_order_total_trans sort :
  (forall a b, sort_order sort a b = true \/ sort_order sort b a = true)
  /\ (forall a b c, sort_order sort a b = true -> sort_order sort b c = true ->
                    sort_order sort a c = true).
Proof.
  assert (Hdesc : forall le : Product.t -> Product.t -> bool,
             (forall a b, le a b = true \/ le b a = true) ->
             (forall a b c, le a b = true -> le b c = true -> le a c = true) ->
             forall desc : bool,
               (forall a b, (if desc then descending le else le) a b = true
                            \/ (if desc then descending le else le) b a = true)
               /\ (forall a b c,
                      (if desc then descending le else le) a b = true ->
                      (if desc then descending le else le) b c = true ->
                      (if desc then descending le else le) a c = true)).
  { intros le Htot Htrans [|]; unfold descending; split; auto.
    intros a b c H1 H2. eapply Htrans; eassumption. }
  destruct sort as [[f o]|]; unfold sort_order.
  - cbn [SortInput.field SortInput.order].
    destruct (dict_lookup columns (dict_get field_map f "created_at"))
      as [le|] eqn:E.
    + destruct (columns_orders _ E) as [Htot Htrans]. now apply Hdesc.
    + apply Hdesc; auto.
  - apply (Hdesc (fun a b => Product.created_at a <=? Product.created_at b)
                 (fun a b => ltac:(rewrite !Z.leb_le; lia))
                 (fun a b c => ltac:(rewrite !Z.leb_le; lia)) true).
Qed.

(** Two ordered arrangements of the same rows are the same list, when no
    two different rows tie. *)
Lemma sorted_arrangement_unique {A} (le : A -> A -> bool) (l1 l2 : list A) :
  (forall a b, In a l1 -> In b l1 -> le a b = true -> le b a = true -> a = b) ->
  StronglySorted (fun a b => le a b = true) l1 ->
  StronglySorted (fun a b => le a b = true) l2 ->
  Permutation l1 l2 -> l1 = l2.
Proof.
  revert l2. induction l1 as [|a t1 IH]; intros l2 Hanti Hs1 Hs2 Hperm.
  - apply Permutation_nil in Hperm. now subst.
  - destruct l2 as [|b t2];
      [apply Permutation_sym, Permutation_nil in Hperm; discriminate|].
    inversion Hs1 as [|? ? Hs1' Hall1]; subst.
    inversion Hs2 as [|? ? Hs2' Hall2]; subst.
    rewrite Forall_forall in Hall1, Hall2.
    assert (Hab : a = b).
    { assert (Ha : In a (b :: t2))
        by (apply (Permutation_in _ Hperm); now left).
      assert (Hb : In b (a :: t1))
        by (apply (Permutation_in _ (Permutation_sym Hperm)); now left).
      destruct Ha as [Ha|Ha]; [now symmetry|].
      destruct Hb as [Hb|Hb]; [exact Hb|].
      apply Hanti; [now left | now right | now apply Hall1 | now apply Hall2]. }
    subst b. f_equal. apply IH.
    + intros x y Hx Hy. apply Hanti; now right.
    + exact Hs1'.
    + exact Hs2'.
    + eapply Permutation_cons_inv, Hperm.
Qed.

(** X1. When no two different matching records tie on the sort key, the
    ordering alone fixes the view (every ordered arrangement of the
    matching records is the view), and pages [1 .. total_pages] of one
    request (fixed filters, sort and page size at least 1), with
    [total_pages] as the resolver reports it, put end to end give back
    that view: nothing is lost and nothing comes twice. *)
Theorem pages_cover_the_view filters sort page_size s :
  1 <= page_size ->
  (forall a b,
      In a (apply_filters filters (products s)) ->
      In b (apply_filters filters (products s)) ->
      sort_order sort a b = true -> sort_order sort b a = true -> a = b) ->
  exists r,
    resolve_products_filtered filters sort 1 page_size s = (Return r, s)
    /\ (forall view,
           Permutation view (apply_filters filters (products s)) ->
           StronglySorted (fun a b => sort_order sort a b = true) view ->
           view = filtered_view filters sort s)
    /\ List.concat (map (page_items filters sort page_size s)
                        (page_numbers (ProductPaginatedType.total_pages r)))
       = filtered_view filters sort s.
Proof.
  intros Hs Hties. eexists. split.
  { apply resolve_products_filtered_run; lia. }
  split.
  - intros view Hperm Hsorted.
    assert (Hview : filtered_view filters sort s
                    = sort_by (sort_order sort)
                              (apply_filters filters (products s))).
    { unfold filtered_view. now rewrite apply_sort_order. }
    rewrite Hview.
    destruct (sort_order_total_trans sort) as [Htot Htrans].
    apply (sorted_arrangement_unique (sort_order sort)).
    + intros a b Ha Hb. apply Hties; eapply Permutation_in; eassumption.
    + exact Hsorted.
    + now apply sort_by_sorted.
    + eapply perm_trans; [exact Hperm|]. apply Permutation_sym, sort_by_perm.
  - cbn [ProductPaginatedType.total_pages].
    set (view := filtered_view filters sort s).
    set (total_pages := (len view + page_size - 1) / page_size).
    unfold page_numbers. rewrite map_map.
    rewrite <- seq_shift, map_map.
    erewrite map_ext_in.
    + apply (chunks_concat (Z.to_nat page_size) (Z.to_nat total_pages) view).
      unfold total_pages. rewrite ceil_div_floordiv by exact Hs.
      pose proof (@ceil_div_least (len view) page_size Hs) as [Hle _].
      unfold len in *.
      assert (0 <= Spec.ceil_div (Z.of_nat (List.length view)) page_size) by nia.
      nia.
    + intros k _. cbv beta. rewrite page_items_chunk by lia.
      fold view. do 3 f_equal. lia.
Qed.

Lemma pages_cover_the_view_witness :
  List.concat (map (page_items None None 2 five_products) [1; 2; 3])
  = [laptop; headphones; python_book; mug; tshirt].
Proof.
  destruct (@pages_cover_the_view None None 2 five_products)
    as (r & Hr & _ & Hcat).
  - lia.
  - intros a b Ha Hb H1 H2. cbn [apply_filters products five_products] in Ha, Hb.
    destruct Ha as [<-|[<-|[<-|[<-|[<-|[]]]]]];
      destruct Hb as [<-|[<-|[<-|[<-|[<-|[]]]]]];
      try reflexivity; vm_compute in H1, H2; discriminate.
  - vm_compute in Hr. injection Hr as <-. exact Hcat.
Defined.

End PagesOfOneRequest.

(* ------------------------------------------------------------------ *)
(** ** Further properties of the product resolvers *)

Section ProductsMore.
Import App3 App3More Fixtures.

Lemma view_sorted_as_requested_witness :
  exists view,
    apply_sort (Some by_price_asc) (products five_products) = Return view
    /\ map Product.id view = [1; 2; 3; 4; 5].
Proof.
  destruct (proj1 view_sorted_as_requested "price" (Some "asc")
                  (products five_products))
    as (le & view & _ & Hrun & _ & _).
  - cbn. auto.
  - exists view. split; [exact Hrun|].
    vm_compute in Hrun. now injection Hrun as <-.
Defined.

(** X6. A first page large enough for the whole table, requested without
    filters or sort, lists exactly what [all_products] lists, in the same
    order, and reports one page at most and no next page. *)
Theorem unfiltered_first_page_is_all_products page_size s :
  1 <= page_size -> len (products s) <= page_size ->
  exists r,
    resolve_products_filtered None None 1 page_size s = (Return r, s)
    /\ resolve_all_products s = (Return (ProductPaginatedType.items r), s)
    /\ ProductPaginatedType.total_pages r <= 1
    /\ ProductPaginatedType.has_next r = false.
Proof.
  intros Hs Hall. eexists. split.
  { apply resolve_products_filtered_run; lia. }
  cbn [ProductPaginatedType.items ProductPaginatedType.total_pages
       ProductPaginatedType.has_next].
  assert (Hview : filtered_view None None s = product_ordering (products s))
    by reflexivity.
  assert (Hlen : len (filtered_view None None s) = len (products s)).
  { rewrite Hview. unfold len, product_ordering. now rewrite sort_by_length. }
  assert (Hpages : (len (filtered_view None None s) + page_size - 1) / page_size
                   <= 1).
  { rewrite ceil_div_floordiv by exact Hs.
    pose proof (@ceil_div_least (len (filtered_view None None s)) page_size Hs)
      as [_ Hlt]. nia. }
  split; [|split].
  - unfold resolve_all_products, bind, objects_all, ret,
      prefetch_related, select_related.
    rewrite <- Hview. do 2 f_equal. cbn [skipn Z.to_nat Z.sub Z.mul].
    change (Z.to_nat ((1 - 1) * page_size)) with 0%nat. cbn [skipn].
    symmetry. apply firstn_all2. unfold len in *. lia.
  - exact Hpages.
  - apply Z.ltb_ge. exact Hpages.
Qed.

Lemma unfiltered_first_page_is_all_products_witness :
  exists r,
    resolve_products_filtered None None 1 10 five_products
    = (Return r, five_products)
    /\ resolve_all_products five_products
       = (Return (ProductPaginatedType.items r), five_products).
Proof.
  destruct (@unfiltered_first_page_is_all_products 10 five_products)
    as (r & Hr & Hall & _); [lia | vm_compute; discriminate |].
  exists r. split; [exact Hr | exact Hall].
Defined.

(** X8. For a category whose id is not 0, [products_count] agrees with
    the [total_count] of the products query filtered by that category,
    whatever the sort, page and page size of a request that returns. *)
Theorem products_count_matches_filtered_total (c : Category.t) sort
        page page_size s r :
  Category.id c <> 0 ->
  fst (resolve_products_filtered
         (Some (Spec.with_category_id no_filters (Some (Category.id c))))
         sort page page_size s) = Return r ->
  resolve_products_count c s = (Return (ProductPaginatedType.total_count r), s).
Proof.
  intros Hid Hrun.
  rewrite (returned_total_count _ _ _ _ _ Hrun).
  unfold resolve_products_count, bind, objects_all, ret, count, qs_filter.
  do 3 f_equal. apply filter_ext. intros p.
  unfold Spec.satisfies_supplied, Spec.drop_falsy, no_filters.
  cbn [Spec.with_category_id ProductFilterInput.name truthy_str
       ProductFilterInput.category_id truthy_int Spec.with_name].
  destruct (Z.eqb_spec (Category.id c) 0) as [|_]; [contradiction|].
  cbn. now rewrite !andb_true_r.
Qed.

Lemma products_count_matches_filtered_total_witness :
  resolve_products_count
    {| Category.id := 3; Category.name := "Clothing";
       Category.slug := "clothing"; Category.created_at := 1 |} five_products
  = (Return 2, five_products).
Proof.
  refine (@products_count_matches_filtered_total
            {| Category.id := 3; Category.name := "Clothing";
               Category.slug := "clothing"; Category.created_at := 1 |}
            None 1 10 five_products
            {| ProductPaginatedType.items := [mug; tshirt];
               ProductPaginatedType.total_count := 2;
               ProductPaginatedType.page := 1;
               ProductPaginatedType.page_size := 10;
               ProductPaginatedType.total_pages := 1;
               ProductPaginatedType.has_next := false;
               ProductPaginatedType.has_previous := false |} _ _).
  - discriminate.
  - reflexivity.
Defined.

End ProductsMore.

(* ------------------------------------------------------------------ *)
(** ** Further properties of the cursor paginator *)

Section CursorPaginatorMore.
Import App3 App3More Fixtures.

Lemma cursor_filters_filter name category_id is_active qs :
  cursor_filters name category_id is_active qs
  = filter (cursor_matches name category_id is_active) qs.
Proof.
  unfold cursor_filters, cursor_matches, qs_filter.
  destruct name as [n|]; [destruct (truthy_str (Some n))|];
    (destruct category_id as [c|]; [destruct (truthy_int (Some c))|]);
    destruct is_active as [b|];
    rewrite ?filter_filter;
    match goal with
    | |- qs = _ => rewrite <- (filter_true qs) at 1
    | _ => idtac
    end;
    apply filter_ext; intros p; cbn [andb];
    now rewrite ?andb_true_r, ?andb_assoc.
Qed.

Lemma cursor_view_perm name category_id is_active s :
  Permutation (cursor_view name category_id is_active s)
              (filter (cursor_matches name category_id is_active) (products s)).
Proof.
  unfold cursor_view. rewrite cursor_filters_filter. apply sort_by_perm.
Qed.

Lemma StronglySorted_firstn {A} (R : A -> A -> Prop) n (l : list A) :
  StronglySorted R l -> StronglySorted R (firstn n l).
Proof.
  intros Hs. revert n. induction Hs as [|x t Hs IH Hall]; intros [|n];
    cbn [firstn]; try constructor.
  - apply IH.
  - rewrite Forall_forall in *. intros y Hy. apply Hall.
    rewrite <- (firstn_skipn n t). apply in_or_app. now left.
Qed.

(** X9. The cursor resolver raises exactly when [first] is negative (the
    slice refuses it).  Otherwise it returns [min(first, total_count)]
    edges, [total_count] is the number of store records matching the
    filters whatever [first] is, and [has_next_page] is true exactly when
    more records match than [first]. *)
Theorem cursor_page_shape name category_id is_active first after s :
  (first < 0 ->
   resolve_products_paginated name category_id is_active first after s
   = (Raise NegativeIndexing, s))
  /\ (0 <= first ->
      exists conn,
        resolve_products_paginated name category_id is_active first after s
        = (Return conn, s)
        /\ ProductConnection.total_count conn
           = len (filter (cursor_matches name category_id is_active)
                         (products s))
        /\ len (ProductConnection.edges conn)
           = Z.min first (ProductConnection.total_count conn)
        /\ (PageInfo.has_next_page (ProductConnection.page_info conn) = true
            <-> first < ProductConnection.total_count conn)).
Proof.
  split.
  - intros Hneg.
    unfold resolve_products_paginated, bind, objects_all, lift, qs_slice.
    change (order_by "-created_at"
                     (cursor_filters name category_id is_active
                        (prefetch_related (select_related (products s)))))
      with (Return (cursor_view name category_id is_active s)).
    cbv iota beta.
    destruct (Z.ltb_spec first 0); [reflexivity | lia].
  - intros Hf. eexists. split.
    { now apply resolve_products_paginated_run. }
    cbn [ProductConnection.total_count ProductConnection.edges
         ProductConnection.page_info PageInfo.has_next_page].
    assert (Hlen : len (cursor_view name category_id is_active s)
                   = len (filter (cursor_matches name category_id is_active)
                                 (products s))).
    { unfold len. now rewrite (Permutation_length (cursor_view_perm _ _ _ _)). }
    split; [exact Hlen|]. split.
    + unfold len. rewrite length_map, length_firstn. lia.
    + rewrite Z.gtb_ltb, Z.ltb_lt. reflexivity.
Qed.

Lemma cursor_page_shape_witness :
  exists conn,
    resolve_products_paginated None None (Some true) 10 None five_products
    = (Return conn, five_products)
    /\ len (ProductConnection.edges conn) = 4.
Proof.
  destruct (proj2 (@cursor_page_shape None None (Some true) 10 None
                                       five_products))
    as (conn & Hrun & Htotal & Hlen & _); [lia|].
  exists conn. split; [exact Hrun|].
  rewrite Hlen, Htotal. reflexivity.
Defined.

(** X10. The edges of a returned page are newest first, and every node is
    a store record that matches the filters ([name] and [category_id]
    applied only when truthy, [is_active] whenever supplied). *)
Theorem cursor_edges_newest_first name category_id is_active first after s conn :
  fst (resolve_products_paginated name category_id is_active first after s)
  = Return conn ->
  StronglySorted
    (fun a b => Product.created_at b <= Product.created_at a)
    (map ProductEdge.node (ProductConnection.edges conn))
  /\ (forall e, In e (ProductConnection.edges conn) ->
                In (ProductEdge.node e) (products s)
                /\ cursor_matches name category_id is_active (ProductEdge.node e)
                   = true).
Proof.
  unfold resolve_products_paginated, bind, objects_all, lift, ret.
  change (order_by "-created_at"
                   (cursor_filters name category_id is_active
                      (prefetch_related (select_related (products s)))))
    with (Return (cursor_view name category_id is_active s)).
  cbv iota beta.
  destruct (qs_slice _ _ _) as [items|] eqn:Eslice; [|discriminate].
  cbn [fst]. intros [= <-]. cbn [ProductConnection.edges].
  unfold qs_slice in Eslice. destruct (_ || _); [discriminate|].
  injection Eslice as <-. cbn [skipn Z.to_nat].
  split.
  - rewrite map_map. cbn [make_edge ProductEdge.node]. rewrite map_id.
    apply StronglySorted_firstn. unfold cursor_view.
    eapply StronglySorted_weaken;
      [|apply (sort_by_sorted
                 (descending (fun a b : Product.t =>
                                Product.created_at a <=? Product.created_at b)))].
    + intros a b H. unfold descending in H. now apply Z.leb_le in H.
    + intros a b. unfold descending. rewrite !Z.leb_le. lia.
    + intros a b c. unfold descending. rewrite !Z.leb_le. lia.
  - intros e Hin. apply in_map_iff in Hin. destruct Hin as (p & <- & Hp).
    cbn [make_edge ProductEdge.node]. apply filter_In.
    apply (Permutation_in _ (cursor_view_perm name category_id is_active s)).
    eapply In_firstn_In, Hp.
Qed.

Lemma cursor_edges_newest_first_witness :
  cursor_matches (Some "book") None None python_book = true.
Proof.
  refine (proj2 (proj2 (@cursor_edges_newest_first
                          (Some "book") None None 5 None five_products _ eq_refl)
                       (make_edge python_book) _)).
  left. reflexivity.
Defined.

(** X11. When the products carry distinct ids, the cursors on a returned
    page are pairwise distinct. *)
Theorem cursors_distinct name category_id is_active first after s conn :
  NoDup (map Product.id (products s)) ->
  fst (resolve_products_paginated name category_id is_active first after s)
  = Return conn ->
  NoDup (map ProductEdge.cursor (ProductConnection.edges conn)).
Proof.
  intros Hids.
  unfold resolve_products_paginated, bind, objects_all, lift, ret.
  change (order_by "-created_at"
                   (cursor_filters name category_id is_active
                      (prefetch_related (select_related (products s)))))
    with (Return (cursor_view name category_id is_active s)).
  cbv iota beta.
  destruct (qs_slice _ _ _) as [items|] eqn:Eslice; [|discriminate].
  cbn [fst]. intros [= <-]. cbn [ProductConnection.edges].
  unfold qs_slice in Eslice. destruct (_ || _); [discriminate|].
  injection Eslice as <-. cbn [skipn Z.to_nat].
  rewrite map_map. cbn [make_edge ProductEdge.cursor].
  rewrite <- (map_map Product.id (fun i => "cursor_" ++ str i)%string).
  apply Finite.Injective_map_NoDup.
  { intros a b E. apply str_inj. now injection E. }
  set (view := cursor_view name category_id is_active s).
  assert (Hview : NoDup (map Product.id view)).
  { eapply Permutation_NoDup.
    - apply Permutation_map, Permutation_sym, cursor_view_perm.
    - clear - Hids. induction (products s) as [|p t IH]; [constructor|].
      cbn [map] in Hids. inversion Hids as [|? ? Hnot Hrest]; subst.
      cbn [filter]. destruct (cursor_matches _ _ _ p); [|now apply IH].
      cbn [map]. constructor; [|now apply IH].
      intros Hin. apply Hnot. apply in_map_iff in Hin.
      destruct Hin as (q & Hq & Hin). apply filter_In in Hin.
      apply in_map_iff. exists q. tauto. }
  rewrite <- (firstn_skipn (Z.to_nat (first - 0)) view) in Hview.
  rewrite map_app in Hview. eapply NoDup_app_remove_r, Hview.
Qed.

Lemma cursors_distinct_witness :
  NoDup ["cursor_5"; "cursor_4"].
Proof.
  refine (@cursors_distinct None None None 2 None five_products _ _ eq_refl).
  vm_compute. repeat constructor; cbn; intuition discriminate.
Defined.

End CursorPaginatorMore.

(* ------------------------------------------------------------------ *)
(** ** Lookups that hit *)

Section LookupHits.
Import Fixtures.

Lemma qs_get_unique {A} `{Model A} (r : A) (qs : list A) :
  NoDup (map pk qs) -> In r qs -> qs_get (pk r) qs = Return r.
Proof.
  intros Hnd Hin. apply in_split in Hin. destruct Hin as (before & after & ->).
  apply qs_get_found; [reflexivity|].
  rewrite map_app in Hnd. cbn [map] in Hnd.
  apply NoDup_remove_2 in Hnd. rewrite <- map_app in Hnd.
  intros r' Hr' E. apply Hnd. rewrite <- E. now apply in_map.
Qed.

Lemma lookup_hit {St A} `{Model A} (table : St -> list A)
      (via : list A -> list A) (r : A) (s : St) :
  (forall qs, via qs = qs) ->
  NoDup (map pk (table s)) -> In r (table s) ->
  try_except
    (qs <- objects_all table ;;
     r <- lift (qs_get (pk r) (via qs)) ;;
     ret (Some r))
    is_DoesNotExist
    (ret None) s
  = (Return (Some r), s).
Proof.
  intros Hvia Hnd Hin.
  unfold try_except, bind, objects_all, lift, ret.
  rewrite Hvia, (@qs_get_unique _ _ r (table s) Hnd Hin). reflexivity.
Qed.

(** X12. In a table whose ids are pairwise distinct, looking a stored
    record up by its own id returns that record, for each of the seven
    lookups, and the store is left as it was. *)
Theorem lookup_of_stored_record
        (s1 : App1.Store) (s3 : App3.Store) (s5 : App5.Store) :
  (forall r, NoDup (map App1.Author.id (App1.authors s1)) ->
             In r (App1.authors s1) ->
             App1.resolve_author (App1.Author.id r) s1 = (Return (Some r), s1))
  /\ (forall r, NoDup (map App1.Book.id (App1.books s1)) ->
                In r (App1.books s1) ->
                App1.resolve_book (App1.Book.id r) s1 = (Return (Some r), s1))
  /\ (forall r, NoDup (map App3.Product.id (App3.products s3)) ->
                In r (App3.products s3) ->
                App3.resolve_product (App3.Product.id r) s3
                = (Return (Some r), s3))
  /\ (forall r, NoDup (map App3.Category.id (App3.categories s3)) ->
                In r (App3.categories s3) ->
                App3.resolve_category (App3.Category.id r) s3
                = (Return (Some r), s3))
  /\ (forall r, NoDup (map App5.Organization.id (App5.organizations s5)) ->
                In r (App5.organizations s5) ->
                App5.resolve_organization (App5.Organization.id r) s5
                = (Return (Some r), s5))
  /\ (forall r, NoDup (map App5.Employee.id (App5.employees s5)) ->
                In r (App5.employees s5) ->
                App5.resolve_employee (App5.Employee.id r) s5
                = (Return (Some r), s5))
  /\ (forall r, NoDup (map App5.Project.id (App5.projects s5)) ->
                In r (App5.projects s5) ->
                App5.resolve_project (App5.Project.id r) s5
                = (Return (Some r), s5)).
Proof.
  repeat split; intros r Hnd Hin.
  - exact (@lookup_hit _ _ App1.Author_Model App1.authors
                        (fun qs => qs) r s1
                        (fun _ => eq_refl) Hnd Hin).
  - exact (@lookup_hit _ _ App1.Book_Model App1.books
                        select_related r s1
                        (fun _ => eq_refl) Hnd Hin).
  - exact (@lookup_hit _ _ App3.Product_Model App3.products
                        (fun qs => prefetch_related (select_related qs)) r s3
                        (fun _ => eq_refl) Hnd Hin).
  - exact (@lookup_hit _ _ App3.Category_Model App3.categories
                        (fun qs => qs) r s3
                        (fun _ => eq_refl) Hnd Hin).
  - exact (@lookup_hit _ _ App5.Organization_Model App5.organizations
                        (fun qs => qs) r s5
                        (fun _ => eq_refl) Hnd Hin).
  - exact (@lookup_hit _ _ App5.Employee_Model App5.employees
                        select_related r s5
                        (fun _ => eq_refl) Hnd Hin).
  - exact (@lookup_hit _ _ App5.Project_Model App5.projects
                        (fun qs => select_related (prefetch_related qs)) r s5
                        (fun _ => eq_refl) Hnd Hin).
Qed.

Lemma lookup_of_stored_record_witness :
  App3.resolve_product 4 five_products = (Return (Some headphones), five_products).
Proof.
  apply (proj1 (proj2 (proj2 (lookup_of_stored_record library five_products
                                                      company)))
               headphones).
  - vm_compute. repeat constructor; cbn; intuition discriminate.
  - vm_compute. tauto.
Defined.

(** Two records under one id make the lookup raise: the resolvers catch
    [DoesNotExist] only. *)
Example lookup_of_duplicated_id_raises :
  App3.resolve_product 1 {| App3.categories := [];
                            App3.products := [tshirt; tshirt_relisted] |}
  = (Raise MultipleObjectsReturned,
     {| App3.categories := []; App3.products := [tshirt; tshirt_relisted] |}).
Proof. reflexivity. Qed.

End LookupHits.

(* ------------------------------------------------------------------ *)
(** ** Listings and statistics of app 5 *)

Section App5Listings.
Import App5 App5More Fixtures.

Lemma count_status_bounds status qs :
  0 <= count_status status qs <= len qs.
Proof.
  unfold count_status, Count, len. rewrite length_map.
  pose proof (filter_length_le
                (fun r => (TestResult.status r =? status)%string) qs).
  lia.
Qed.

(** Three different statuses never count the same row twice. *)
Lemma count_three_statuses qs :
  count_status "passed" qs + count_status "failed" qs
  + count_status "skipped" qs <= len qs.
Proof.
  unfold count_status, Count, len. rewrite !length_map.
  induction qs as [|r t IH]; [cbn; lia|].
  cbn [filter].
  destruct (String.eqb_spec (TestResult.status r) "passed") as [E1|_];
    destruct (String.eqb_spec (TestResult.status r) "failed") as [E2|_];
    destruct (String.eqb_spec (TestResult.status r) "skipped") as [E3|_];
    try (rewrite E1 in *; discriminate);
    try (rewrite E2 in *; discriminate);
    cbn [List.length]; lia.
Qed.

(** X13. The test summary never raises, not even on an empty table: the
    pass rate is the float [(passed / total) * 100] with [total] the
    number of tests, or 1 when there are none, so the division is never
    by zero.  [total_tests] is the number of rows and the three status
    counts never exceed it together.  On an empty table all counts are 0,
    the pass rate is [(0 / 1) * 100] and the total time is the float 0;
    otherwise the total time is [total or 0.0] for the database's sum. *)
Theorem test_summary_bounds s :
  exists r,
    resolve_test_summary s = (Return r, s)
    /\ TestSummaryType.total_tests r = len (test_results s)
    /\ 0 <= TestSummaryType.passed r
    /\ TestSummaryType.passed r + TestSummaryType.failed r
       + TestSummaryType.skipped r <= TestSummaryType.total_tests r
    /\ TestSummaryType.pass_rate r
       = PyFloat.mul
           (PyFloat.div_int (TestSummaryType.passed r)
                            (Z.max 1 (TestSummaryType.total_tests r)))
           (PyFloat.of_int 100)
    /\ (TestSummaryType.total_tests r = 0 ->
        TestSummaryType.passed r = 0
        /\ TestSummaryType.failed r = 0
        /\ TestSummaryType.skipped r = 0
        /\ TestSummaryType.total_execution_time r = PyFloat.stored (0 # 1))
    /\ (0 < TestSummaryType.total_tests r ->
        TestSummaryType.total_execution_time r
        = PyFloat.or_zero
            (PyFloat.db_sum (map TestResult.execution_time (test_results s)))).
Proof.
  set (qs := test_results s).
  pose proof (count_status_bounds "passed" qs) as Hp.
  pose proof (count_status_bounds "failed" qs) as Hf.
  pose proof (count_status_bounds "skipped" qs) as Hk.
  pose proof (count_three_statuses qs) as H3.
  assert (Htot : Count (map TestResult.id qs) = len qs)
    by (unfold Count, len; now rewrite length_map).
  assert (Hmax : (if len qs =? 0 then 1 else len qs) = Z.max 1 (len qs)).
  { destruct (Z.eqb_spec (len qs) 0); unfold len in *; lia. }
  assert (Hgt : (Z.max 1 (len qs) >? 0) = true) by (apply Z.gtb_lt; lia).
  assert (Hnz : (Z.max 1 (len qs) =? 0) = false) by (apply Z.eqb_neq; lia).
  eexists. split.
  { unfold resolve_test_summary, bind, objects_all, lift, ret, PyFloat.truediv.
    fold qs. rewrite Htot, Hmax, Hgt, Hnz. reflexivity. }
  cbn [TestSummaryType.total_tests TestSummaryType.passed
       TestSummaryType.failed TestSummaryType.skipped
       TestSummaryType.pass_rate TestSummaryType.total_execution_time].
  split; [reflexivity|]. split; [lia|]. split; [exact H3|].
  split; [reflexivity|]. split.
  - intros Hz. assert (Hnil : qs = []).
    { destruct qs; [reflexivity | unfold len in Hz; cbn in Hz; lia]. }
    rewrite Hnil. repeat split.
  - intros Hpos. destruct qs as [|x t]; [unfold len in Hpos; cbn in Hpos; lia|].
    reflexivity.
Qed.

End App5Listings.

Section App5ListingsMore.
Import App5 App5More Fixtures.

Lemma test_summary_bounds_witness :
  exists r,
    resolve_test_summary {| test_results := [] |}
    = (Return r, {| test_results := [] |})
    /\ TestSummaryType.pass_rate r
       = PyFloat.mul (PyFloat.div_int 0 1) (PyFloat.of_int 100).
Proof.
  destruct (test_summary_bounds {| test_results := [] |})
    as (r & Hr & Htot & _ & _ & Hrate & Hzero & _).
  exists r. split; [exact Hr|].
  destruct (Hzero Htot) as (Hp & _). rewrite Hrate, Hp, Htot. reflexivity.
Defined.

Lemma Qle_bool_desc_sorted {A} (key : A -> Q) (l : list A) :
  StronglySorted (fun a b => (key b <= key a)%Q)
                 (sort_by (descending (fun a b => Qle_bool (key a) (key b))) l).
Proof.
  eapply StronglySorted_weaken;
    [|apply (sort_by_sorted
               (descending (fun a b => Qle_bool (key a) (key b))))].
  - intros a b H. unfold descending in H. now apply Qle_bool_iff in H.
  - intros a b. unfold descending. apply Qle_bool_total.
  - intros a b c. unfold descending. intros H1 H2.
    eapply Qle_bool_trans; eassumption.
Qed.

(** X14. [slowest_endpoints] treats a missing limit and a limit of 0
    alike, as 10.  With a non-negative limit it returns at most that many
    metrics, all of type "api_response", slowest first, and none that was
    left out is slower than one that was returned.  A negative limit
    raises. *)
Theorem slowest_endpoints_top limit s :
  resolve_slowest_endpoints (Some 0) s = resolve_slowest_endpoints None s
  /\ resolve_slowest_endpoints None s = resolve_slowest_endpoints (Some 10) s
  /\ (limit_or_10 limit < 0 ->
      resolve_slowest_endpoints limit s = (Raise NegativeIndexing, s))
  /\ (0 <= limit_or_10 limit ->
      exists top rest,
        resolve_slowest_endpoints limit s = (Return top, s)
        /\ len top <= limit_or_10 limit
        /\ Permutation
             (top ++ rest)
             (filter (fun r => (Performance.metric_type r =? "api_response")%string)
                     (performances s))
        /\ StronglySorted
             (fun a b => (Performance.value b <= Performance.value a)%Q) top
        /\ (forall a b, In a top -> In b rest ->
                        (Performance.value b <= Performance.value a)%Q)
        /\ (rest <> [] -> len top = limit_or_10 limit)).
Proof.
  split; [reflexivity|]. split; [reflexivity|]. split.
  - intros Hneg.
    unfold resolve_slowest_endpoints, bind, objects_all, lift, qs_slice.
    destruct (Z.ltb_spec (limit_or_10 limit) 0); [reflexivity | lia].
  - intros Hnn.
    set (api := filter (fun r => (Performance.metric_type r =? "api_response")%string)
                       (performances s)).
    set (sorted := sort_by (descending
                              (fun a b => Qle_bool (Performance.value a)
                                                   (Performance.value b))) api).
    exists (firstn (Z.to_nat (limit_or_10 limit)) sorted),
           (skipn (Z.to_nat (limit_or_10 limit)) sorted).
    assert (Hsorted : StronglySorted
                        (fun a b => (Performance.value b <= Performance.value a)%Q)
                        sorted)
      by apply (Qle_bool_desc_sorted Performance.value).
    split; [|split; [|split; [|split; [|split]]]].
    + unfold resolve_slowest_endpoints, bind, objects_all, lift, qs_slice, qs_filter.
      fold api. fold sorted.
      destruct (Z.ltb_spec (limit_or_10 limit) 0); [lia|].
      cbn [Z.ltb Z.compare orb skipn Z.to_nat]. now rewrite Z.sub_0_r.
    + unfold len. rewrite length_firstn. lia.
    + rewrite firstn_skipn. apply sort_by_perm.
    + now apply StronglySorted_firstn.
    + intros a b Ha Hb.
      rewrite <- (firstn_skipn (Z.to_nat (limit_or_10 limit)) sorted) in Hsorted.
      clear - Hsorted Ha Hb.
      induction (firstn (Z.to_nat (limit_or_10 limit)) sorted) as [|x t IH];
        [contradiction|].
      cbn [app] in Hsorted. inversion Hsorted as [|? ? Hs Hall]; subst.
      destruct Ha as [<-|Ha]; [|now apply IH].
      rewrite Forall_forall in Hall. apply Hall, in_or_app. now right.
    + intros Hrest. unfold len. rewrite length_firstn.
      assert (Z.to_nat (limit_or_10 limit) < List.length sorted)%nat.
      { destruct (Nat.lt_ge_cases (Z.to_nat (limit_or_10 limit))
                                  (List.length sorted)) as [H|H]; [exact H|].
        exfalso. apply Hrest. now apply skipn_all2. }
      lia.
Qed.

Lemma slowest_endpoints_top_witness :
  exists top rest : list Performance.t,
    resolve_slowest_endpoints (Some 1) company = (Return top, company)
    /\ len top <= 1
    /\ rest <> [].
Proof.
  destruct (proj2 (proj2 (proj2 (slowest_endpoints_top (Some 1) company))))
    as (top & rest & Hrun & Hlen & Hperm & _); [vm_compute; discriminate|].
  exists top, rest. split; [exact Hrun|]. split; [exact Hlen|].
  vm_compute in Hrun. injection Hrun as <-.
  intros ->. apply Permutation_length in Hperm. vm_compute in Hperm.
  discriminate.
Defined.

(** X15. [expensive_employees] returns at most 20 employees, every one
    active and paid at least [min_salary], best paid first; when at most
    20 employees qualify, all of them are returned. *)
Theorem expensive_employees_top min_salary s :
  exists top,
    resolve_expensive_employees min_salary s = (Return top, s)
    /\ len top <= 20
    /\ (forall e, In e top ->
                  In e (employees s)
                  /\ Employee.is_active e = true
                  /\ (min_salary <= Employee.salary e)%Q)
    /\ StronglySorted
         (fun a b => (Employee.salary b <= Employee.salary a)%Q) top
    /\ (forall qualifying,
           qualifying
           = filter (fun e => Qle_bool min_salary (Employee.salary e)
                              && Bool.eqb (Employee.is_active e) true)
                    (employees s) ->
           len qualifying <= 20 -> Permutation top qualifying).
Proof.
  eexists. split; [reflexivity|].
  set (qualifying := filter (fun e => Qle_bool min_salary (Employee.salary e)
                                      && Bool.eqb (Employee.is_active e) true)
                            (employees s)).
  unfold qs_filter, select_related. fold qualifying.
  set (sorted := sort_by (descending
                            (fun a b => Qle_bool (Employee.salary a)
                                                 (Employee.salary b)))
                         qualifying).
  cbn [skipn Z.to_nat Z.sub].
  change (Z.to_nat (20 - 0)) with 20%nat.
  split; [|split; [|split]].
  - unfold len. rewrite length_firstn. lia.
  - intros e He. apply In_firstn_In in He.
    apply (Permutation_in _ (sort_by_perm _ qualifying)) in He.
    apply filter_In in He. destruct He as [Hin Hq].
    apply andb_prop in Hq. destruct Hq as [Hsal Hact].
    split; [exact Hin|]. split.
    + now apply Bool.eqb_prop in Hact.
    + now apply Qle_bool_iff.
  - apply StronglySorted_firstn.
    apply (Qle_bool_desc_sorted Employee.salary).
  - intros q -> Hlen. fold qualifying in Hlen |- *.
    rewrite firstn_all2.
    + apply sort_by_perm.
    + unfold sorted. rewrite sort_by_length. unfold len in Hlen. lia.
Qed.

Lemma expensive_employees_top_witness :
  exists top,
    resolve_expensive_employees (40000 # 1) company = (Return top, company)
    /\ map Employee.id top = [1].
Proof.
  destruct (expensive_employees_top (40000 # 1) company)
    as (top & Hrun & _).
  exists top. split; [exact Hrun|].
  vm_compute in Hrun. now injection Hrun as <-.
Defined.

End App5ListingsMore.

Section DepartmentStats.
Import App5 App5More Fixtures.

Lemma total_perm xs ys : Permutation xs ys -> total xs = total ys.
Proof.
  induction 1; cbn [total fold_right] in *; unfold total in *; lia.
Qed.

Lemma total_indicator (d : string) (ks : list string) :
  NoDup ks -> In d ks ->
  total (map (fun k => if (d =? k)%string then 1 else 0) ks) = 1.
Proof.
  induction ks as [|k t IH]; intros Hnd Hin; [contradiction|].
  inversion Hnd as [|? ? Hnot Hrest]; subst. cbn [map total fold_right].
  destruct (String.eqb_spec d k) as [->|Hne].
  - assert (E : total (map (fun k0 => if (k =? k0)%string then 1 else 0) t) = 0).
    { clear - Hnot. induction t as [|x t IH]; [reflexivity|].
      cbn [map total fold_right].
      destruct (String.eqb_spec k x) as [->|_];
        [exfalso; apply Hnot; now left|].
      unfold total in IH. rewrite IH; [reflexivity|].
      intros H. apply Hnot. now right. }
    unfold total in *. lia.
  - destruct Hin as [->|Hin]; [contradiction|].
    specialize (IH Hrest Hin). unfold total in *. lia.
Qed.

(** Group sizes over a duplicate-free list of keys that covers the rows
    add up to the number of rows. *)
Lemma group_sizes_total {A} (key : A -> string) (ks : list string) (l : list A) :
  NoDup ks -> (forall e, In e l -> In (key e) ks) ->
  total (map (fun k => len (filter (fun e => (key e =? k)%string) l)) ks)
  = len l.
Proof.
  intros Hnd. induction l as [|e t IH]; intros Hcov.
  - cbn [filter]. clear. induction ks; [reflexivity|].
    cbn [map total fold_right] in *. unfold total in *. rewrite IHks. reflexivity.
  - assert (Hsplit :
              forall ks',
                total (map (fun k => len (filter (fun e0 => (key e0 =? k)%string)
                                                 (e :: t))) ks')
                = total (map (fun k => if (key e =? k)%string then 1 else 0) ks')
                  + total (map (fun k => len (filter
                                                (fun e0 => (key e0 =? k)%string) t))
                               ks')).
    { induction ks' as [|k ks' IHk]; [reflexivity|].
      cbn [map total fold_right filter] in *. unfold total in *.
      rewrite IHk. destruct (key e =? k)%string; unfold len; cbn [List.length]; lia. }
    rewrite Hsplit, IH, total_indicator.
    + unfold len. cbn [List.length]. lia.
    + exact Hnd.
    + apply Hcov. now left.
    + intros e' He'. apply Hcov. now right.
Qed.

(** X16. The department statistics cover the active employees exactly:
    every department with an active employee appears once, with a count
    of at least 1 and a non-null average salary, the counts add up to
    the number of active employees, and the rows come largest count first. *)
Theorem department_stats_cover_active_employees s :
  exists stats,
    resolve_employee_stats_by_department s = (Return stats, s)
    /\ NoDup (map EmployeeStatsType.department stats)
    /\ (forall d, In d (map EmployeeStatsType.department stats)
                  <-> exists e, In e (employees s)
                                /\ Employee.is_active e = true
                                /\ Employee.department e = d)
    /\ total (map EmployeeStatsType.count stats)
       = len (filter (fun e => Bool.eqb (Employee.is_active e) true)
                     (employees s))
    /\ Forall (fun st => 1 <= EmployeeStatsType.count st
                         /\ EmployeeStatsType.average_salary st <> None) stats
    /\ StronglySorted
         (fun a b => EmployeeStatsType.count b <= EmployeeStatsType.count a)
         stats.
Proof.
  eexists. split; [reflexivity|].
  unfold qs_filter.
  set (active := filter (fun e => Bool.eqb (Employee.is_active e) true)
                        (employees s)).
  set (mk := fun d =>
               {| EmployeeStatsType.department := d;
                  EmployeeStatsType.count :=
                    Count (map Employee.id
                               (filter (fun e => (Employee.department e =? d)%string)
                                       active));
                  EmployeeStatsType.average_salary :=
                    Avg (map Employee.salary
                             (filter (fun e => (Employee.department e =? d)%string)
                                     active)) |}).
  set (le := descending (fun a b => EmployeeStatsType.count a
                                    <=? EmployeeStatsType.count b)).
  pose proof (sort_by_perm le (map mk (departments active))) as Hperm.
  assert (Hnd : NoDup (departments active)) by apply NoDup_nodup.
  assert (Hdeps : map EmployeeStatsType.department (map mk (departments active))
                  = departments active).
  { rewrite map_map. cbn [mk EmployeeStatsType.department]. apply map_id. }
  split; [|split; [|split; [|split]]].
  - eapply Permutation_NoDup;
      [apply Permutation_map, Permutation_sym, Hperm|].
    now rewrite Hdeps.
  - intros d.
    assert (Hiff : In d (map EmployeeStatsType.department
                             (sort_by le (map mk (departments active))))
                   <-> In d (map EmployeeStatsType.department
                                 (map mk (departments active)))).
    { split; apply Permutation_in;
        [apply Permutation_map, Hperm
        | apply Permutation_map, Permutation_sym, Hperm]. }
    rewrite Hiff, Hdeps. unfold departments. rewrite nodup_In, in_map_iff.
    split.
    + intros (e & <- & He). apply filter_In in He. destruct He as [Hin Hact].
      exists e. repeat split; [exact Hin | now apply Bool.eqb_prop in Hact].
    + intros (e & Hin & Hact & <-). exists e. split; [reflexivity|].
      apply filter_In. split; [exact Hin | now rewrite Hact].
  - rewrite (total_perm (Permutation_map EmployeeStatsType.count Hperm)).
    rewrite map_map. cbn [mk EmployeeStatsType.count].
    rewrite (map_ext _ (fun d => len (filter (fun e => (Employee.department e
                                                        =? d)%string) active)))
      by (intros d; unfold Count, len; now rewrite length_map).
    apply (group_sizes_total Employee.department); [exact Hnd|].
    intros e He. unfold departments. apply nodup_In. now apply in_map.
  - apply Forall_forall. intros st Hst.
    apply (Permutation_in _ Hperm) in Hst. apply in_map_iff in Hst.
    destruct Hst as (d & <- & Hd). unfold departments in Hd.
    apply nodup_In, in_map_iff in Hd. destruct Hd as (e & <- & He).
    cbn [mk EmployeeStatsType.count EmployeeStatsType.average_salary].
    assert (Hin : In e (filter (fun e0 => (Employee.department e0
                                           =? Employee.department e)%string)
                               active)).
    { apply filter_In. split; [exact He | apply String.eqb_refl]. }
    destruct (filter _ active) as [|x t]; [contradiction|].
    split; [unfold Count, len; cbn [map List.length]; lia | discriminate].
  - eapply StronglySorted_weaken; [|apply (sort_by_sorted le)].
    + intros a b H. unfold le, descending in H. now apply Z.leb_le in H.
    + intros a b. unfold le, descending. rewrite !Z.leb_le. lia.
    + intros a b c. unfold le, descending. rewrite !Z.leb_le. lia.
Qed.

Lemma department_stats_cover_active_employees_witness :
  exists stats,
    resolve_employee_stats_by_department company = (Return stats, company)
    /\ total (map EmployeeStatsType.count stats) = 1.
Proof.
  destruct (department_stats_cover_active_employees company)
    as (stats & Hrun & _ & _ & Htotal & _).
  exists stats. split; [exact Hrun | exact Htotal].
Defined.

End DepartmentStats.

(* ------------------------------------------------------------------ *)
(** ** The cache of app 5 *)

Section CacheFacts.
Import App5 App5Cache Fixtures.

Lemma lookup_after_set (c : Cache) key value :
  dict_lookup ((key, value)
                 :: filter (fun kv => negb (fst kv =? key)%string) c) key
  = Some value.
Proof. cbn [dict_lookup]. now rewrite String.eqb_refl. Qed.

Lemma lookup_after_set_other (c : Cache) key value key' :
  key <> key' ->
  dict_lookup ((key, value)
                 :: filter (fun kv => negb (fst kv =? key)%string) c) key'
  = dict_lookup c key'.
Proof.
  intros Hne. cbn [dict_lookup].
  destruct (String.eqb_spec key key') as [|_]; [contradiction|].
  induction c as [|[k v] t IH]; [reflexivity|].
  cbn [filter fst dict_lookup].
  destruct (String.eqb_spec k key) as [->|Hk]; cbn [negb].
  - destruct (String.eqb_spec key key') as [|_]; [contradiction | exact IH].
  - cbn [dict_lookup]. destruct (k =? key')%string; [reflexivity | exact IH].
Qed.

Lemma employees_key_inj a b :
  "org_employees_" ++ str a = "org_employees_" ++ str b -> a = b.
Proof. intros E. apply str_inj. now injection E. Qed.

(** X17. [all_organizations] on an empty cache entry reads the database
    once: it returns the active organizations only, newest first, and
    leaves the database as it was.  From then on the answer comes from
    the cache: whatever the database has become, the same list is
    returned and nothing is written. *)
Theorem all_organizations_cached s :
  dict_lookup (cache s) "all_orgs" = None ->
  exists orgs s',
    resolve_all_organizations s = (Return (OrgList orgs), s')
    /\ db s' = db s
    /\ Permutation orgs
                   (filter (fun o => Bool.eqb (Organization.is_active o) true)
                           (organizations (db s)))
    /\ StronglySorted
         (fun a b => Organization.created_at b <= Organization.created_at a)
         orgs
    /\ forall db',
        resolve_all_organizations {| db := db'; cache := cache s' |}
        = (Return (OrgList orgs), {| db := db'; cache := cache s' |}).
Proof.
  intros Hmiss. do 2 eexists. split.
  { unfold resolve_all_organizations, bind, cache_get, objects_all, cache_set,
      ret. cbn [db cache]. rewrite Hmiss. reflexivity. }
  cbn [db cache]. split; [reflexivity|]. split; [|split].
  - apply sort_by_perm.
  - unfold organization_ordering.
    eapply StronglySorted_weaken;
      [|apply (sort_by_sorted
                 (descending (fun a b : Organization.t =>
                                Organization.created_at a
                                <=? Organization.created_at b)))].
    + intros a b H. unfold descending in H. now apply Z.leb_le in H.
    + intros a b. unfold descending. rewrite !Z.leb_le. lia.
    + intros a b c. unfold descending. rewrite !Z.leb_le. lia.
  - intros db'.
    unfold resolve_all_organizations, bind, cache_get, ret. cbn [db cache].
    rewrite lookup_after_set. reflexivity.
Qed.

Lemma all_organizations_cached_witness :
  exists orgs s',
    resolve_all_organizations {| db := company; cache := [] |}
    = (Return (OrgList orgs), s')
    /\ db s' = company.
Proof.
  destruct (@all_organizations_cached {| db := company; cache := [] |} eq_refl)
    as (orgs & s' & Hrun & Hdb & _).
  exists orgs, s'. split; [exact Hrun | exact Hdb].
Defined.

(** X18. The cached employee count is kept per organization.  On an
    empty entry the count is the number of active employees of that
    organization; the next call for the same organization is answered
    from the cache even if the database has changed; and a call for an
    organization with another id is not answered by that entry. *)
Theorem employee_count_cached_per_organization s (a b : Organization.t) :
  dict_lookup (cache s) ("org_employees_" ++ str (Organization.id a)) = None ->
  exists n s',
    get_employee_count_cached a s = (Return (IntValue n), s')
    /\ n = len (filter (fun e => (Employee.organization_id e
                                  =? Organization.id a)
                                 && Bool.eqb (Employee.is_active e) true)
                       (employees (db s)))
    /\ db s' = db s
    /\ (forall db',
           get_employee_count_cached a {| db := db'; cache := cache s' |}
           = (Return (IntValue n), {| db := db'; cache := cache s' |}))
    /\ (Organization.id a <> Organization.id b ->
        dict_lookup (cache s') ("org_employees_" ++ str (Organization.id b))
        = dict_lookup (cache s) ("org_employees_" ++ str (Organization.id b))).
Proof.
  intros Hmiss. do 2 eexists. split.
  { unfold get_employee_count_cached, bind, cache_get, objects_all, cache_set,
      ret. cbn [db cache]. rewrite Hmiss. reflexivity. }
  cbn [db cache]. split; [|split; [|split]].
  - unfold Orm.count, qs_filter. now rewrite filter_filter.
  - reflexivity.
  - intros db'.
    unfold get_employee_count_cached, bind, cache_get, ret. cbn [db cache].
    rewrite lookup_after_set. reflexivity.
  - intros Hne. apply lookup_after_set_other.
    intros E. apply Hne. now apply employees_key_inj.
Qed.

Lemma employee_count_cached_per_organization_witness :
  exists s',
    get_employee_count_cached
      {| Organization.id := 1; Organization.name := "Acme";
         Organization.slug := "acme"; Organization.is_active := true;
         Organization.created_at := 1 |}
      {| db := company; cache := [] |}
    = (Return (IntValue 1), s').
Proof.
  destruct (@employee_count_cached_per_organization
              {| db := company; cache := [] |}
              {| Organization.id := 1; Organization.name := "Acme";
                 Organization.slug := "acme"; Organization.is_active := true;
                 Organization.created_at := 1 |}
              {| Organization.id := 2; Organization.name := "Other";
                 Organization.slug := "other"; Organization.is_active := true;
                 Organization.created_at := 2 |} eq_refl)
    as (n & s' & Hrun & Hn & _).
  exists s'. rewrite Hrun. vm_compute in Hn. now rewrite Hn.
Defined.

(** X19. With no cache entry for the organization, [total_budget] is
    Python's [sum] of [float(budget)] over the projects of that
    organization and of no other, in the order [Project.Meta.ordering]
    puts them, and the int 0 when it has none; the database is left as it
    was.  The value is cached: the next call returns it whatever the
    database holds.  It lives under a key of its own: filling it leaves
    the employee-count entries of every organization untouched. *)
Theorem total_budget_cached project_ordering s (a b : Organization.t) :
  (forall l : list Project.t, Permutation (project_ordering l) l) ->
  dict_lookup (cache s) ("org_budget_" ++ str (Organization.id a)) = None ->
  exists budget s',
    resolve_total_budget project_ordering a s = (Return (FloatValue budget), s')
    /\ budget
       = PyFloat.sum
           (map (fun p => PyFloat.of_decimal (Project.budget p))
                (project_ordering
                   (filter (fun p => Project.organization_id p
                                     =? Organization.id a)
                           (projects (db s)))))
    /\ db s' = db s
    /\ ((forall p, In p (projects (db s)) ->
                   Project.organization_id p <> Organization.id a) ->
        budget = PyFloat.of_int 0)
    /\ (forall db',
           resolve_total_budget project_ordering a
                                {| db := db'; cache := cache s' |}
           = (Return (FloatValue budget), {| db := db'; cache := cache s' |}))
    /\ dict_lookup (cache s') ("org_employees_" ++ str (Organization.id b))
       = dict_lookup (cache s) ("org_employees_" ++ str (Organization.id b)).
Proof.
  intros Hperm Hmiss. do 2 eexists. split.
  { unfold resolve_total_budget, bind, cache_get, objects_all, cache_set, ret.
    cbn [db cache]. rewrite Hmiss. reflexivity. }
  cbn [db cache]. split; [reflexivity|]. split; [reflexivity|].
  split; [|split].
  - intros Hnone. unfold qs_filter.
    assert (E : filter (fun p => Project.organization_id p =? Organization.id a)
                       (projects (db s)) = []).
    { induction (projects (db s)) as [|p t IH]; [reflexivity|].
      cbn [filter].
      destruct (Z.eqb_spec (Project.organization_id p) (Organization.id a))
        as [Heq|_].
      - exfalso. apply (Hnone p); [now left | exact Heq].
      - apply IH. intros p' Hp'. apply Hnone. now right. }
    rewrite E.
    rewrite (Permutation_nil (Permutation_sym (Hperm []))). reflexivity.
  - intros db'.
    unfold resolve_total_budget, bind, cache_get, ret. cbn [db cache].
    rewrite lookup_after_set. reflexivity.
  - apply lookup_after_set_other. discriminate.
Qed.

Lemma total_budget_cached_witness :
  exists s',
    resolve_total_budget
      (@rev Project.t)
      {| Organization.id := 1; Organization.name := "Acme";
         Organization.slug := "acme"; Organization.is_active := true;
         Organization.created_at := 1 |}
      {| db := company; cache := [] |}
    = (Return
         (FloatValue
            (PyFloat.add (PyFloat.of_int 0) (PyFloat.of_decimal (100000 # 1)))),
       s').
Proof.
  destruct (@total_budget_cached
              (@rev Project.t)
              {| db := company; cache := [] |}
              {| Organization.id := 1; Organization.name := "Acme";
                 Organization.slug := "acme"; Organization.is_active := true;
                 Organization.created_at := 1 |}
              {| Organization.id := 1; Organization.name := "Acme";
                 Organization.slug := "acme"; Organization.is_active := true;
                 Organization.created_at := 1 |}
              (fun l => Permutation_sym (Permutation_rev l)) eq_refl)
    as (budget & s' & Hrun & Hbudget & _).
  exists s'. rewrite Hrun, Hbudget. reflexivity.
Defined.

End CacheFacts.

(* ------------------------------------------------------------------ *)
(** ** The DataLoader *)

Section DataLoaderFacts.
Import DataLoader.
Context {V : Type}.

Lemma cache_lookup_store (c : list (Z * V)) key v key' :
  cache_lookup (cache_store c key v) key'
  = if key =? key' then Some v else cache_lookup c key'.
Proof.
  unfold cache_store. cbn [cache_lookup].
  destruct (Z.eqb_spec key key') as [->|Hne]; [reflexivity|].
  induction c as [|[k x] t IH]; [reflexivity|].
  cbn [filter fst cache_lookup].
  destruct (Z.eqb_spec k key) as [->|Hk]; cbn [negb].
  - destruct (Z.eqb_spec key key') as [|_]; [contradiction | exact IH].
  - cbn [cache_lookup]. destruct (k =? key'); [reflexivity | exact IH].
Qed.

Lemma settle_calls (pairs : list ((Z * Promise V) * V)) c calls :
  snd (settle pairs c calls)
  = (calls ++ map (fun pr => (snd (fst pr), snd pr)) pairs)%list.
Proof.
  revert c calls. induction pairs as [|[[k p] v] rest IH]; intros c calls.
  - cbn. now rewrite app_nil_r.
  - cbn [settle map fst snd]. rewrite IH, <- app_assoc. reflexivity.
Qed.

(** After the loop a key of the batch holds its answer, any other key
    holds what it held. *)
Lemma settle_lookup (f : Z -> V) (q : list (Z * Promise V)) c calls key :
  cache_lookup (fst (settle (combine q (map f (map fst q))) c calls)) key
  = if existsb (fun kp => fst kp =? key) q then Some (f key)
    else cache_lookup c key.
Proof.
  revert c calls. induction q as [|[k p] rest IH]; intros c calls.
  - reflexivity.
  - cbn [map fst combine settle existsb]. rewrite IH, cache_lookup_store.
    destruct (existsb (fun kp => fst kp =? key) rest);
      [now rewrite orb_true_r|].
    rewrite orb_false_r. destruct (Z.eqb_spec k key) as [->|_]; reflexivity.
Qed.

Lemma dispatch_unfold (batch_fn : list Z -> list V) (self : t V) :
  dispatch batch_fn self
  = match queue self with
    | [] => self
    | _ :: _ =>
      {| queue := [];
         cache := fst (settle (combine (queue self)
                                       (batch_fn (map fst (queue self))))
                              (cache self) (resolve_calls self));
         created := created self;
         resolve_calls :=
           snd (settle (combine (queue self)
                                (batch_fn (map fst (queue self))))
                       (cache self) (resolve_calls self)) |}
    end.
Proof.
  unfold dispatch. destruct (queue self); [reflexivity|].
  destruct (settle _ _ _). reflexivity.
Qed.

(** The cache and the queue after a dispatch with a key-by-key batch
    function. *)
Lemma dispatch_cache (f : Z -> V) (self : t V) :
  queue (dispatch (map f) self) = []
  /\ forall key,
      cache_lookup (cache (dispatch (map f) self)) key
      = if existsb (fun kp => fst kp =? key) (queue self)
        then Some (f key) else cache_lookup (cache self) key.
Proof.
  rewrite dispatch_unfold.
  destruct (queue self) as [|kp rest] eqn:Eq.
  - rewrite Eq. cbn [existsb]. split; reflexivity.
  - cbn [queue cache]. split; [reflexivity|].
    intros key. apply settle_lookup.
Qed.

(** X20. With a batch function that answers key by key, [dispatch]
    empties the queue, caches the answer of every queued key, leaves the
    entries of all other keys alone, and calls [resolve] once on every
    queued promise, in queue order, with the answer of its key (a key
    queued twice gets two calls). *)
Theorem dispatch_settles_queue (f : Z -> V) (self : t V) :
  let after := dispatch (map f) self in
  queue after = []
  /\ (forall key,
         cache_lookup (cache after) key
         = if existsb (fun kp => fst kp =? key) (queue self)
           then Some (f key) else cache_lookup (cache self) key)
  /\ resolve_calls after
     = (resolve_calls self
          ++ map (fun kp => (snd kp, f (fst kp))) (queue self))%list
  /\ created after = created self.
Proof.
  cbv zeta. rewrite dispatch_unfold.
  destruct (queue self) as [|kp rest] eqn:Eq.
  - rewrite Eq. cbn [existsb map]. rewrite app_nil_r. repeat split.
  - cbn [queue cache resolve_calls created].
    split; [reflexivity|]. split; [|split; [|reflexivity]].
    + intros key. apply settle_lookup.
    + rewrite settle_calls. f_equal.
      generalize (kp :: rest). clear. intros q.
      induction q as [|[k p] t IH]; [reflexivity|].
      cbn [map fst snd combine]. now rewrite IH.
Qed.

(** X21. Load, dispatch, load again: a key that was not cached is
    queued with a pending promise; after a dispatch with a key-by-key
    batch function the same key is answered at once with a resolved
    promise carrying its value, and that second load changes nothing. *)
Theorem load_after_dispatch_hits_cache (f : Z -> V) (key : Z) (self : t V) :
  cache_lookup (cache self) key = None ->
  exists n,
    fst (load key self) = Pending V n
    /\ let after := dispatch (map f) (snd (load key self)) in
       load key after = (Resolved (f key), after)
       /\ queue after = [].
Proof.
  intros Hmiss. unfold load at 1 2. rewrite Hmiss. cbn [fst snd].
  eexists. split; [reflexivity|]. cbv zeta.
  set (loaded := {| queue := (queue self
                              ++ [(key, Pending V (created self))])%list;
                    cache := cache self;
                    created := Datatypes.S (created self);
                    resolve_calls := resolve_calls self |}).
  destruct (dispatch_cache f loaded) as (Hq & Hc).
  split; [|exact Hq].
  unfold load. rewrite Hc.
  assert (E : existsb (fun kp => fst kp =? key) (queue loaded) = true).
  { cbn [loaded queue]. rewrite existsb_app. cbn [existsb fst].
    now rewrite Z.eqb_refl, orb_true_r. }
  now rewrite E.
Qed.

(** A cached key is answered with what the cache holds, and is not queued. *)
Lemma load_cached (key : Z) (v : V) (self : t V) :
  cache_lookup (cache self) key = Some v ->
  load key self = (Resolved v, self).
Proof. intros H. unfold load. now rewrite H. Qed.

(** X22. [dispatch] pairs the queue with the batch results and stops at
    the shorter of the two: the queue is emptied all the same, and only
    as many promises get a [resolve] call as there are results. *)
Theorem dispatch_with_short_batch (batch_fn : list Z -> list V) (self : t V) :
  let after := dispatch batch_fn self in
  let results := batch_fn (map fst (queue self)) in
  queue after = []
  /\ List.length (resolve_calls after)
     = (List.length (resolve_calls self)
        + Nat.min (List.length (queue self)) (List.length results))%nat
  /\ map fst (resolve_calls after)
     = (map fst (resolve_calls self)
          ++ firstn (List.length results) (map snd (queue self)))%list.
Proof.
  cbv zeta. rewrite dispatch_unfold.
  destruct (queue self) as [|kp rest] eqn:Eq.
  - rewrite Eq. cbn [map List.length Nat.min firstn].
    rewrite firstn_nil, app_nil_r, Nat.add_0_r. repeat split.
  - cbn [queue resolve_calls]. split; [reflexivity|].
    rewrite settle_calls.
    generalize (batch_fn (map fst (kp :: rest))). intros results.
    generalize (kp :: rest). intros q. split.
    + rewrite length_app, length_map, length_combine. reflexivity.
    + rewrite map_app, map_map. cbn [fst]. f_equal.
      revert results. induction q as [|[k p] t IH]; intros [|r results];
        cbn [combine map firstn List.length fst snd]; try reflexivity.
      now rewrite IH.
Qed.

End DataLoaderFacts.

Section DataLoaderWitnesses.
Import DataLoader.

Lemma load_after_dispatch_hits_cache_witness :
  exists n,
    fst (load 7 (init Z)) = Pending Z n
    /\ load 7 (dispatch (map (fun k => k * 2)) (snd (load 7 (init Z))))
       = (Resolved 14,
          dispatch (map (fun k => k * 2)) (snd (load 7 (init Z)))).
Proof.
  destruct (@load_after_dispatch_hits_cache Z (fun k => k * 2) 7 (init Z)
                                            eq_refl)
    as (n & Hload & Hhit & _).
  exists n. split; [exact Hload | exact Hhit].
Defined.

(** One result for two queued keys: the second promise is never resolved. *)
Example short_batch_leaves_promise_pending :
  let loader := snd (load 2 (snd (load 1 (init Z)))) in
  let after := dispatch (fun keys => firstn 1 keys) loader in
  queue after = []
  /\ resolve_calls after = [(Pending Z 0, 1)]
  /\ cache_lookup (cache after) 2 = None.
Proof. repeat split. Qed.

End DataLoaderWitnesses.

(* ------------------------------------------------------------------ *)
(** ** Aggregates over matching rows, and the plain listings *)

Section AggregatesMore.
Import Fixtures.

Lemma fold_Qmax2 (t : list Q) (x : Q) :
  In (fold_left Qmax2 t x) (x :: t)
  /\ (forall y, In y (x :: t) -> (y <= fold_left Qmax2 t x)%Q).
Proof.
  revert x. induction t as [|z t IH]; intros x.
  - cbn. split; [now left | intros y [<-|[]]; apply Qle_refl].
  - cbn [fold_left]. destruct (IH (Qmax2 x z)) as [Hin Hle]. split.
    + destruct Hin as [Hin|Hin]; [|right; now right].
      rewrite <- Hin. unfold Qmax2.
      destruct (Qle_bool x z); [right; now left | now left].
    + assert (Hx : (x <= Qmax2 x z)%Q /\ (z <= Qmax2 x z)%Q).
      { unfold Qmax2. destruct (Qle_bool x z) eqn:E.
        - apply Qle_bool_iff in E. split; [exact E | apply Qle_refl].
        - split; [apply Qle_refl|].
          destruct (Qlt_le_dec z x) as [H|H]; [now apply Qlt_le_weak|].
          apply Qle_bool_iff in H. congruence. }
      intros y [<-|[<-|Hy]].
      * eapply Qle_trans; [apply Hx | apply Hle; now left].
      * eapply Qle_trans; [apply Hx | apply Hle; now left].
      * apply Hle. now right.
Qed.

Lemma fold_Qmin2 (t : list Q) (x : Q) :
  In (fold_left Qmin2 t x) (x :: t)
  /\ (forall y, In y (x :: t) -> (fold_left Qmin2 t x <= y)%Q).
Proof.
  revert x. induction t as [|z t IH]; intros x.
  - cbn. split; [now left | intros y [<-|[]]; apply Qle_refl].
  - cbn [fold_left]. destruct (IH (Qmin2 x z)) as [Hin Hle]. split.
    + destruct Hin as [Hin|Hin]; [|right; now right].
      rewrite <- Hin. unfold Qmin2.
      destruct (Qle_bool x z); [now left | right; now left].
    + assert (Hx : (Qmin2 x z <= x)%Q /\ (Qmin2 x z <= z)%Q).
      { unfold Qmin2. destruct (Qle_bool x z) eqn:E.
        - apply Qle_bool_iff in E. split; [apply Qle_refl | exact E].
        - split; [|apply Qle_refl].
          destruct (Qlt_le_dec z x) as [H|H]; [now apply Qlt_le_weak|].
          apply Qle_bool_iff in H. congruence. }
      intros y [<-|[<-|Hy]].
      * eapply Qle_trans; [apply Hle; now left | apply Hx].
      * eapply Qle_trans; [apply Hle; now left | apply Hx].
      * apply Hle. now right.
Qed.

(** X23. When some metric has the requested type, the performance
    summary counts the metrics of that type, and its minimum and maximum
    are values of such metrics that bound the value of every one of
    them; the average is not null. *)
Theorem performance_summary_bounds metric_type s :
  (exists r, In r (App5.performances s)
             /\ App5.Performance.metric_type r = metric_type) ->
  exists summary lo hi,
    App5.resolve_performance_summary metric_type s = (Return summary, s)
    /\ App5.PerformanceMetricsType.count summary
       = len (filter (fun r => (App5.Performance.metric_type r
                                =? metric_type)%string)
                     (App5.performances s))
    /\ App5.PerformanceMetricsType.min_value summary = Some lo
    /\ App5.PerformanceMetricsType.max_value summary = Some hi
    /\ App5.PerformanceMetricsType.average_value summary <> None
    /\ (forall r, In r (App5.performances s) ->
                  App5.Performance.metric_type r = metric_type ->
                  (lo <= App5.Performance.value r <= hi)%Q)
    /\ (exists r, In r (App5.performances s)
                  /\ App5.Performance.metric_type r = metric_type
                  /\ App5.Performance.value r = lo)
    /\ (exists r, In r (App5.performances s)
                  /\ App5.Performance.metric_type r = metric_type
                  /\ App5.Performance.value r = hi).
Proof.
  intros (r0 & Hin0 & Hty0).
  set (matching := filter (fun r => (App5.Performance.metric_type r
                                     =? metric_type)%string)
                          (App5.performances s)).
  assert (Hmatch : forall r, In r matching
                             <-> In r (App5.performances s)
                                 /\ App5.Performance.metric_type r = metric_type).
  { intros r. unfold matching. rewrite filter_In, String.eqb_eq. tauto. }
  assert (Hne : In r0 matching) by (apply Hmatch; tauto).
  unfold App5.resolve_performance_summary, bind, objects_all, ret, qs_filter.
  fold matching.
  destruct matching as [|x t] eqn:Em; [contradiction|].
  cbn [map Max Min Avg].
  destruct (fold_Qmax2 (map App5.Performance.value t) (App5.Performance.value x))
    as [Hmax_in Hmax_le].
  destruct (fold_Qmin2 (map App5.Performance.value t) (App5.Performance.value x))
    as [Hmin_in Hmin_le].
  do 3 eexists. split; [reflexivity|].
  cbn [App5.PerformanceMetricsType.count App5.PerformanceMetricsType.min_value
       App5.PerformanceMetricsType.max_value
       App5.PerformanceMetricsType.average_value].
  split; [unfold Count, len; cbn [List.length]; now rewrite length_map|].
  split; [reflexivity|]. split; [reflexivity|]. split; [discriminate|].
  change (App5.Performance.value x :: map App5.Performance.value t)
    with (map App5.Performance.value (x :: t)) in *.
  split; [|split].
  - intros r Hr Hty. assert (Hrm : In r (x :: t)) by (apply Hmatch; tauto).
    split; [apply Hmin_le | apply Hmax_le]; now apply in_map.
  - apply in_map_iff in Hmin_in. destruct Hmin_in as (r & Hv & Hr).
    exists r. apply Hmatch in Hr. tauto.
  - apply in_map_iff in Hmax_in. destruct Hmax_in as (r & Hv & Hr).
    exists r. apply Hmatch in Hr. tauto.
Qed.

Lemma performance_summary_bounds_witness :
  exists summary,
    App5.resolve_performance_summary "api_response" company
    = (Return summary, company)
    /\ App5.PerformanceMetricsType.count summary = 2.
Proof.
  destruct (@performance_summary_bounds "api_response" company)
    as (summary & lo & hi & Hrun & Hcount & _).
  - exists (api_metric 1 120). split; [now left | reflexivity].
  - exists summary. split; [exact Hrun | exact Hcount].
Defined.

(** X25. [performance_metrics] returns at most 100 metrics, newest
    first, all stored; a non-empty [metric_type] keeps only the metrics
    of that type, an empty one behaves like none. *)
Theorem performance_metrics_recent metric_type s :
  exists l,
    App5More.resolve_performance_metrics metric_type s = (Return l, s)
    /\ len l <= 100
    /\ StronglySorted
         (fun a b => App5.Performance.timestamp b <= App5.Performance.timestamp a)
         l
    /\ (forall r, In r l ->
                  In r (App5.performances s)
                  /\ (forall m, metric_type = Some m -> m <> "" ->
                                App5.Performance.metric_type r = m))
    /\ App5More.resolve_performance_metrics (Some "") s
       = App5More.resolve_performance_metrics None s.
Proof.
  eexists. split; [reflexivity|].
  cbn [skipn Z.to_nat Z.sub]. change (Z.to_nat (100 - 0)) with 100%nat.
  split; [|split; [|split; [|reflexivity]]].
  - unfold len. rewrite length_firstn. lia.
  - apply StronglySorted_firstn.
    eapply StronglySorted_weaken;
      [|apply (sort_by_sorted
                 (descending (fun a b : App5.Performance.t =>
                                App5.Performance.timestamp a
                                <=? App5.Performance.timestamp b)))].
    + intros a b H. unfold descending in H. now apply Z.leb_le in H.
    + intros a b. unfold descending. rewrite !Z.leb_le. lia.
    + intros a b c. unfold descending. rewrite !Z.leb_le. lia.
  - intros r Hr. apply In_firstn_In in Hr. apply sort_by_In in Hr.
    destruct metric_type as [m|]; [|split; [exact Hr | discriminate]].
    unfold truthy_str in Hr.
    destruct (String.eqb_spec m "") as [->|Hm]; cbn [negb] in Hr.
    + split; [exact Hr|]. intros m' [= <-] Hne. contradiction.
    + unfold qs_filter in Hr. apply filter_In in Hr. destruct Hr as [Hin Hty].
      split; [exact Hin|]. intros m' [= <-] _. now apply String.eqb_eq.
Qed.

Lemma performance_metrics_recent_witness :
  exists l,
    App5More.resolve_performance_metrics (Some "api_response") company
    = (Return l, company)
    /\ map App5.Performance.id l = [2; 1].
Proof.
  destruct (performance_metrics_recent (Some "api_response") company)
    as (l & Hrun & _).
  exists l. split; [exact Hrun|].
  vm_compute in Hrun. now injection Hrun as <-.
Defined.

(** X26. The plain listings lose and invent nothing: [all_products] is
    the product table reordered newest first, [all_categories] the
    category table reordered by name; the store is left as it was. *)
Theorem plain_listings s :
  exists products categories,
    App3More.resolve_all_products s = (Return products, s)
    /\ App3More.resolve_all_categories s = (Return categories, s)
    /\ Permutation products (App3.products s)
    /\ Permutation categories (App3.categories s)
    /\ StronglySorted
         (fun a b => App3.Product.created_at b <= App3.Product.created_at a)
         products
    /\ StronglySorted
         (fun a b => (App3.Category.name a <=? App3.Category.name b)%string
                     = true)
         categories.
Proof.
  do 2 eexists. split; [reflexivity|]. split; [reflexivity|].
  unfold prefetch_related, select_related.
  split; [apply sort_by_perm|]. split; [apply sort_by_perm|]. split.
  - unfold App3More.product_ordering.
    eapply StronglySorted_weaken;
      [|apply (sort_by_sorted
                 (descending (fun a b : App3.Product.t =>
                                App3.Product.created_at a
                                <=? App3.Product.created_at b)))].
    + intros a b H. unfold descending in H. now apply Z.leb_le in H.
    + intros a b. unfold descending. rewrite !Z.leb_le. lia.
    + intros a b c. unfold descending. rewrite !Z.leb_le. lia.
  - unfold App3More.category_ordering. apply sort_by_sorted.
    + intros a b. apply String.leb_total.
    + intros a b c. apply string_leb_trans.
Qed.

End AggregatesMore.
